(** * tsh proxy: a shallow embedding of tool/tsh/proxy.go

    The development models the three [tsh proxy] sub-commands (ssh, db, app)
    of tool/tsh/proxy.go together with the helpers they are built from, and
    proves the properties the design document states about them.

    Conventions.
    - A Go [string] is a [string]; [fmt.Sprintf] with [%s] verbs is written
      out as concatenation.
    - A Go [error] is an [option error_value]: [None] is [nil].
    - A Go function returning [(T, error)] returns a pair [T * error].
    - Calls that leave proxy.go (the client library, the ALPN local proxy,
      the operating system) are fields of the record [Externs]; every such
      call that touches the outside world is also recorded as an [Event] in
      the log the command returns, in program order. *)

From Stdlib Require Import ZArith DecimalString.
From stdpp Require Import gmap strings list fin_maps.

Local Open Scope Z_scope.

#[local] Set Warnings "-clear-no-such-hyp".

(* ===================================================================== *)
(** * Go strings *)
(* ===================================================================== *)

Module strings.

(** [s[i:j]] for [0 <= i <= j <= len(s)]. *)
Definition slice (s : string) (i j : nat) : string :=
  String.substring i (j - i) s.

(** [strings.HasSuffix]:
    [len(s) >= len(suffix) && s[len(s)-len(suffix):] == suffix]. *)
Definition HasSuffix (s suffix : string) : bool :=
  (String.length suffix <=? String.length s)%nat &&
  bool_decide
    (slice s (String.length s - String.length suffix) (String.length s)
     = suffix).

(** [strings.TrimSuffix]: [s] without the trailing [suffix], or [s] itself
    when [s] does not end in [suffix]. *)
Definition TrimSuffix (s suffix : string) : string :=
  if HasSuffix s suffix
  then slice s 0 (String.length s - String.length suffix)
  else s.

End strings.

(** [strconv.Itoa]. *)
Definition Itoa (i : Z) : string := NilZero.string_of_int (Z.to_int i).

(* ===================================================================== *)
(** * Hostname cleaning (proxy.go, lines 69-77) *)
(* ===================================================================== *)

Definition cleanTargetHost (targetHost proxyHost siteName : string) : string :=
  let targetHost := strings.TrimSuffix targetHost ("." +:+ proxyHost) in
  let targetHost := strings.TrimSuffix targetHost ("." +:+ siteName) in
  targetHost.

(* ===================================================================== *)
(** * Errors (github.com/gravitational/trace) *)
(* ===================================================================== *)

(** The error values that can flow through proxy.go.  [TraceErr] is the
    wrapper the trace package puts around an error to carry the call site;
    [ExitError] is the [*exec.ExitError] of a child process; [ForeignError]
    stands for any other error value produced outside this file. *)
#[warnings="-register-all"]
Inductive error_value : Type :=
| BadParameterError (Message : string)
| NotFoundError (Message : string)
| AggregateError (errs : list error_value)
| TraceErr (Err : error_value)
| ExitError (code : Z)
| ForeignError (what : string).

(** A Go [error]; [None] is [nil]. *)
Definition error : Type := option error_value.

Module trace.

(** [trace.Wrap]: [nil] stays [nil]; an error that already is a trace
    error is returned as it is; any other error is put in a [TraceErr]. *)
Definition Wrap (e : error) : error :=
  match e with
  | None => None
  | Some (TraceErr x) => Some (TraceErr x)
  | Some x => Some (TraceErr x)
  end.

Definition BadParameter (message : string) : error :=
  Some (TraceErr (BadParameterError message)).

Definition NotFound (message : string) : error :=
  Some (TraceErr (NotFoundError message)).

(** [trace.NewAggregate]: drops the [nil]s; [nil] when nothing is left. *)
Definition NewAggregate (errs : list error) : error :=
  match omap id errs with
  | [] => None
  | nonNils => Some (TraceErr (AggregateError nonNils))
  end.

(** [trace.Unwrap]: the original error under the trace wrappers. *)
Fixpoint Unwrap (e : error_value) : error_value :=
  match e with
  | TraceErr x => Unwrap x
  | _ => e
  end.

Definition IsBadParameter (e : error) : bool :=
  match e with
  | Some v => if Unwrap v is BadParameterError _ then true else false
  | None => false
  end.

Definition IsNotFound (e : error) : bool :=
  match e with
  | Some v => if Unwrap v is NotFoundError _ then true else false
  | None => false
  end.

(** The message of a parameter or not-found error. *)
Definition Message (e : error) : option string :=
  match e with
  | Some v =>
      match Unwrap v with
      | BadParameterError m | NotFoundError m => Some m
      | _ => None
      end
  | None => None
  end.

End trace.

(* ===================================================================== *)
(** * Time (package time) *)
(* ===================================================================== *)

Module time.

(** A [time.Time] without monotonic reading: nanoseconds since the epoch. *)
Definition Time : Type := Z.

(** A [time.Duration]: a signed 64-bit count of nanoseconds. *)
Definition Duration : Type := Z.

Definition minDuration : Duration := - 2 ^ 63.
Definition maxDuration : Duration := 2 ^ 63 - 1.
Definition Second : Duration := 1000000000.

(** [t.Sub(u)]: [t - u], saturated to the range of a [Duration]. *)
Definition Sub (t u : Time) : Duration :=
  let d := t - u in
  if d <? minDuration then minDuration
  else if maxDuration <? d then maxDuration
  else d.

(** [time.Until(t)] is [t.Sub(time.Now())]. *)
Definition Until (now t : Time) : Duration := Sub t now.

End time.

(* ===================================================================== *)
(** * Data *)
(* ===================================================================== *)

Definition bytes : Type := list Byte.byte.

(** Opaque handles of objects owned by the runtime or by other packages. *)
Definition Context : Type := nat.
Definition Listener : Type := nat.
Definition LocalProxy : Type := nat.
Definition CertPool : Type := nat.
Definition HostKeyCallback : Type := nat.

Definition Protocol : Type := string.

(** The ALPN token of the ssh proxy (named in the comment of
    [onProxyCommandSSH]). *)
Definition ProtocolProxySSH : Protocol := "teleport-proxy-ssh".

(** The fields of [CLIConf] that proxy.go reads. *)
Record CLIConf : Type := {
  cf_Context : Context;
  cf_InsecureSkipVerify : bool;
  cf_SiteName : string;
  cf_Proxy : string;
  cf_HomePath : string;
  cf_AppName : string;
  cf_LocalProxyPort : string;
  cf_LocalProxyCertFile : string;
  cf_LocalProxyKeyFile : string
}.

(** The fields of [client.TeleportClient] that proxy.go reads. *)
Record TeleportClient : Type := {
  tc_Host : string;
  tc_WebProxyAddr : string;
  tc_SiteName : string;
  tc_HostLogin : string;
  tc_TLSRoutingEnabled : bool;
  tc_KeysDir : string;
  tc_HostKeyCallback : HostKeyCallback
}.

Record NetAddr : Type := {
  Addr : string;
  AddrNetwork : string;
  Path : string
}.

Record tls_Config : Type := { RootCAs : CertPool }.

(** [tls.Certificate]: the DER chain, leaf first, and the private key. *)
Record tls_Certificate : Type := {
  Certificate : list bytes;
  PrivateKey : bytes
}.

(** [tls.Certificate{}]. *)
Definition tls_Certificate_zero : tls_Certificate :=
  {| Certificate := []; PrivateKey := [] |}.

Record x509_Certificate : Type := { NotAfter : time.Time }.

(** [client.Key], as far as [loadAppCertificate] reads it. *)
Record Key : Type := {
  Priv : bytes;
  AppTLSCerts : gmap string bytes
}.

Record RouteToDatabase : Type := {
  db_ServiceName : string;
  db_Protocol : string
}.

Definition ProfileStatus : Type := nat.

(** [alpnproxy.LocalProxyConfig].  A field a call site does not set keeps
    its zero value: the empty string, [false], [None], the empty list. *)
Record LocalProxyConfig : Type := {
  RemoteProxyAddr : string;
  Protocol_ : Protocol;
  InsecureSkipVerify : bool;
  Listener_ : option Listener;
  SNI : string;
  ParentContext : Context;
  SSHUser : string;
  SSHUserHost : string;
  SSHHostKeyCallback : option HostKeyCallback;
  SSHTrustedCluster : string;
  ClientTLSConfig : option tls_Config;
  Certs : list tls_Certificate
}.

Record localProxyOpts : Type := {
  proxyAddr : string;
  listener : Listener;
  protocol : string;
  insecure : bool;
  certFile : string;
  keyFile : string
}.

(** The standard streams of the running process. *)
Inductive File : Type := os_Stdin | os_Stdout | os_Stderr.

(** [exec.Cmd], as far as [sshProxy] sets it.  A stream left [nil] ([None])
    is connected to the null device. *)
Record Cmd : Type := {
  cmd_Path : string;
  cmd_Args : list string;
  cmd_Stdin : option File;
  cmd_Stdout : option File;
  cmd_Stderr : option File
}.

(* ===================================================================== *)
(** * Effects *)
(* ===================================================================== *)

(** What a command does to the outside world, in program order. *)
Inductive Event : Type :=
| EvMakeClient                                   (* makeClient(cf, false) *)
| EvGetKey (site : string)                       (* LocalAgent().GetKey *)
| EvClientCertPool (site : string)               (* LocalAgent().ClientCertPool *)
| EvReadKeyPair (certFile keyFile : string)      (* tls.LoadX509KeyPair *)
| EvListen (network addr : string)               (* net.Listen *)
| EvListenerClose (l : Listener)                 (* listener.Close() *)
| EvNewLocalProxy (cfg : LocalProxyConfig)       (* alpnproxy.NewLocalProxy *)
| EvGoCloseOnDone (ctx : Context) (lp : LocalProxy)
                      (* go func() { <-ctx.Done(); lp.Close() }() *)
| EvStart (lp : LocalProxy) (ctx : Context)      (* lp.Start(ctx) *)
| EvSSHProxy (lp : LocalProxy)                   (* lp.SSHProxy(agent) *)
| EvClose (lp : LocalProxy)                      (* lp.Close() *)
| EvRun (child : Cmd)                            (* child.Run() *)
| EvStatusCurrent (home proxy : string)          (* libclient.StatusCurrent *)
| EvStdout (text : string)                       (* a write to os.Stdout *)
| EvLogWarn (err : error) (msg : string)         (* log.WithError(err).Warnf *)
| EvLogError (err : error) (msg : string).       (* log.WithError(err).Errorf *)

(** A computation that returns an [A] and the events it caused. *)
Definition M (A : Type) : Type := A * list Event.

Definition ret {A} (a : A) : M A := (a, []).

Definition bind {A B} (m : M A) (k : A -> M B) : M B :=
  let r := k m.1 in (r.1, m.2 ++ r.2).

Definition emit (e : Event) : M unit := (tt, [e]).

(** The call [f(..)] that causes the event [e] and returns [a]. *)
Definition call {A} (e : Event) (a : A) : M A := (a, [e]).

Notation "'let*' x ':=' m 'in' k" := (bind m (fun x => k))
  (at level 10, x pattern, m at level 100, k at level 200,
   format "'[v' 'let*'  x  ':='  m  'in' '/' k ']'").

(** [defer d; body]: [d] runs when [body] returns, whichever way. *)
Definition defer {A} (d : M unit) (body : M A) : M A :=
  let* a := body in
  let* _ := d in
  ret a.

Definition result {A} (m : M A) : A := m.1.
Definition events {A} (m : M A) : list Event := m.2.

(* ===================================================================== *)
(** * The collaborators of proxy.go *)
(* ===================================================================== *)

(** Everything proxy.go calls and does not define: one field per function
    or method, named as in the source.  A field gives the value the call
    returns in the run under study. *)
Record Externs : Type := {
  (* tool/tsh *)
  makeClient : CLIConf -> bool -> TeleportClient * error;
  pickActiveDatabase : CLIConf -> RouteToDatabase * error;
  getSSHPath : string * error;
  (* lib/client *)
  WebProxyHost : TeleportClient -> string;
  SSHProxyHostPort : TeleportClient -> string * Z;
  RootClusterName : TeleportClient -> string * error;
  ClientCertPool : TeleportClient -> string -> CertPool * error;
  GetKey : TeleportClient -> string -> Key * error;
  StatusCurrent : string -> string -> ProfileStatus * error;
  CACertPathForCluster : ProfileStatus -> string -> string;
  DatabaseCertPathForCluster : ProfileStatus -> string -> string -> string;
  KeyPath : ProfileStatus -> string;
  (* api/profile, api/utils/keypaths, lib/utils *)
  FullProfilePath : string -> string;
  KnownHostsPath : string -> string;
  ParseAddr : string -> NetAddr * error;
  Host : NetAddr -> string;
  (* lib/srv/alpnproxy *)
  ProtocolHTTP : Protocol;
  ToALPNProtocol : string -> Protocol * error;
  NewLocalProxy : LocalProxyConfig -> LocalProxy * error;
  LocalProxy_GetAddr : LocalProxy -> string;
  LocalProxy_Start : LocalProxy -> Context -> error;
  LocalProxy_SSHProxy : LocalProxy -> error;
  LocalProxy_Close : LocalProxy -> error;
  (* net, crypto/tls, crypto/x509, os, os/exec, time *)
  SplitHostPort : string -> string * string * error;
  Listen : string -> string -> Listener * error;
  Listener_Close : Listener -> error;
  Listener_Addr : Listener -> string;
  LoadX509KeyPair : string -> string -> tls_Certificate * error;
  X509KeyPair : bytes -> bytes -> tls_Certificate * error;
  ParseCertificate : bytes -> x509_Certificate * error;
  Stdout_Write : string -> error;
  Run : Cmd -> error;
  Now : time.Time
}.

(** [exec.Command(name, arg...)]: the command line starts with the program
    name.  (The lookup of a bare name in PATH is not modelled.) *)
Definition exec_Command (name : string) (arg : list string) : Cmd :=
  {| cmd_Path := name; cmd_Args := name :: arg;
     cmd_Stdin := None; cmd_Stdout := None; cmd_Stderr := None |}.

Definition newline : string := String (Ascii.ascii_of_nat 10) EmptyString.

(** [dbProxyTpl], executed on the map the db command builds. *)
Definition dbProxyTpl (address database ca cert key : string) : string :=
  "Started DB proxy on " +:+ address +:+ newline +:+
  newline +:+
  "Use following credentials to connect to the " +:+ database +:+ " proxy:"
    +:+ newline +:+
  "  ca_file=" +:+ ca +:+ newline +:+
  "  cert_file=" +:+ cert +:+ newline +:+
  "  key_file=" +:+ key +:+ newline.

(* ===================================================================== *)
(** * proxy.go *)
(* ===================================================================== *)

Section Proxy.

Context (E : Externs).

(** [lp.Close()] where the source drops the returned error. *)
Definition lp_Close (lp : LocalProxy) : M unit :=
  let* _ := call (EvClose lp) (LocalProxy_Close E lp) in
  ret tt.

(** proxy.go, lines 79-113. *)
Definition sshProxyWithTLSRouting (cf : CLIConf) (tc : TeleportClient)
    (targetHost targetPort : string) : M error :=
  let '(address, err) := ParseAddr E (tc_WebProxyAddr tc) in
  if err is Some _ then ret (trace.Wrap err) else
  let* (pool, err) :=
    call (EvClientCertPool (tc_SiteName tc))
         (ClientCertPool E tc (tc_SiteName tc)) in
  if err is Some _ then ret (trace.Wrap err) else
  let tlsConfig := {| RootCAs := pool |} in
  let cfg :=
    {| RemoteProxyAddr := tc_WebProxyAddr tc;
       Protocol_ := ProtocolProxySSH;
       InsecureSkipVerify := cf_InsecureSkipVerify cf;
       ParentContext := cf_Context cf;
       SNI := Host E address;
       SSHUser := tc_HostLogin tc;
       SSHUserHost := targetHost +:+ ":" +:+ targetPort;
       SSHHostKeyCallback := Some (tc_HostKeyCallback tc);
       SSHTrustedCluster := cf_SiteName cf;
       ClientTLSConfig := Some tlsConfig;
       Listener_ := None;
       Certs := [] |} in
  let* (lp, err) := call (EvNewLocalProxy cfg) (NewLocalProxy E cfg) in
  if err is Some _ then ret (trace.Wrap err) else
  defer (lp_Close lp)
    (let* err := call (EvSSHProxy lp) (LocalProxy_SSHProxy E lp) in
     if err is Some _ then ret (trace.Wrap err) else
     ret None).

(** proxy.go, lines 115-142. *)
Definition sshProxy (cf : CLIConf) (tc : TeleportClient)
    (targetHost targetPort : string) : M error :=
  let '(sshPath, err) := getSSHPath E in
  if err is Some _ then ret (trace.Wrap err) else
  let keysDir := FullProfilePath E (tc_KeysDir tc) in
  let knownHostsPath := KnownHostsPath E keysDir in
  let '(sshHost, sshPort) := SSHProxyHostPort E tc in
  let args :=
    [ "-A";
      "-o"; "UserKnownHostsFile=" +:+ knownHostsPath;
      "-p"; Itoa sshPort;
      sshHost;
      "-s";
      "proxy:" +:+ targetHost +:+ ":" +:+ targetPort +:+ "@"
        +:+ tc_SiteName tc ] in
  let args :=
    if bool_decide (tc_HostLogin tc ≠ "")
    then ["-l"; tc_HostLogin tc] ++ args
    else args in
  let child := exec_Command sshPath args in
  let child :=
    {| cmd_Path := cmd_Path child; cmd_Args := cmd_Args child;
       cmd_Stdin := Some os_Stdin;
       cmd_Stdout := Some os_Stdout;
       cmd_Stderr := Some os_Stderr |} in
  let* err := call (EvRun child) (Run E child) in
  ret (trace.Wrap err).

(** proxy.go, lines 50-67. *)
Definition onProxyCommandSSH (cf : CLIConf) : M error :=
  let* (tc, err) := call EvMakeClient (makeClient E cf false) in
  if err is Some _ then ret (trace.Wrap err) else
  let '(targetHost, targetPort, err) := SplitHostPort E (tc_Host tc) in
  if err is Some _ then ret (trace.Wrap err) else
  let targetHost :=
    cleanTargetHost targetHost (WebProxyHost E tc) (tc_SiteName tc) in
  if tc_TLSRoutingEnabled tc then
    let* err := sshProxyWithTLSRouting cf tc targetHost targetPort in
    ret (trace.Wrap err)
  else
    let* err := sshProxy cf tc targetHost targetPort in
    ret (trace.Wrap err).

(** proxy.go, lines 247-259. *)
Definition mkLocalProxyCerts (certFile keyFile : string)
    : M (list tls_Certificate * error) :=
  if bool_decide (certFile = "") && bool_decide (keyFile = "") then
    ret ([], None)
  else if bool_decide (certFile = "") && bool_decide (keyFile ≠ "")
          || bool_decide (certFile ≠ "") && bool_decide (keyFile = "") then
    ret ([], trace.BadParameter
               "both --cert-file and --key-file are required")
  else
    let* (cert, err) :=
      call (EvReadKeyPair certFile keyFile)
           (LoadX509KeyPair E certFile keyFile) in
    if err is Some _ then ret ([], trace.Wrap err) else
    ret ([cert], None).

(** proxy.go, lines 219-245.  On an error the returned proxy is [nil],
    here the handle [0]. *)
Definition mkLocalProxy (ctx : Context) (opts : localProxyOpts)
    : M (LocalProxy * error) :=
  let '(alpnProtocol, err) := ToALPNProtocol E (protocol opts) in
  if err is Some _ then ret (0%nat, trace.Wrap err) else
  let '(address, err) := ParseAddr E (proxyAddr opts) in
  if err is Some _ then ret (0%nat, trace.Wrap err) else
  let* (certs, err) := mkLocalProxyCerts (certFile opts) (keyFile opts) in
  if err is Some _ then ret (0%nat, trace.Wrap err) else
  let cfg :=
    {| InsecureSkipVerify := insecure opts;
       RemoteProxyAddr := proxyAddr opts;
       Protocol_ := alpnProtocol;
       Listener_ := Some (listener opts);
       ParentContext := ctx;
       SNI := Host E address;
       Certs := certs;
       SSHUser := ""; SSHUserHost := ""; SSHHostKeyCallback := None;
       SSHTrustedCluster := ""; ClientTLSConfig := None |} in
  let* (lp, err) := call (EvNewLocalProxy cfg) (NewLocalProxy E cfg) in
  if err is Some _ then ret (0%nat, trace.Wrap err) else
  ret (lp, None).

(** The local address both listening commands bind (lines 158-161 and
    277-280). *)
Definition listenAddr (cf : CLIConf) : string :=
  if bool_decide (cf_LocalProxyPort cf ≠ "")
  then "127.0.0.1:" +:+ cf_LocalProxyPort cf
  else "localhost:0".

(** proxy.go, lines 144-208. *)
Definition onProxyCommandDB (cf : CLIConf) : M error :=
  let* (client, err) := call EvMakeClient (makeClient E cf false) in
  if err is Some _ then ret (trace.Wrap err) else
  let '(database, err) := pickActiveDatabase E cf in
  if err is Some _ then ret (trace.Wrap err) else
  let '(rootCluster, err) := RootClusterName E client in
  if err is Some _ then ret (trace.Wrap err) else
  let addr := listenAddr cf in
  let* (listener, err) := call (EvListen "tcp" addr) (Listen E "tcp" addr) in
  if err is Some _ then ret (trace.Wrap err) else
  defer
    (let* err :=
       call (EvListenerClose listener) (Listener_Close E listener) in
     if err is Some _
     then emit (EvLogWarn err "Failed to close listener.")
     else ret tt)
    (let* (lp, err) :=
       mkLocalProxy (cf_Context cf)
         {| proxyAddr := tc_WebProxyAddr client;
            protocol := db_Protocol database;
            listener := listener;
            insecure := cf_InsecureSkipVerify cf;
            certFile := cf_LocalProxyCertFile cf;
            keyFile := cf_LocalProxyKeyFile cf |} in
     if err is Some _ then ret (trace.Wrap err) else
     let* _ := emit (EvGoCloseOnDone (cf_Context cf) lp) in
     let* (profile, err) :=
       call (EvStatusCurrent (cf_HomePath cf) (cf_Proxy cf))
            (StatusCurrent E (cf_HomePath cf) (cf_Proxy cf)) in
     if err is Some _ then ret (trace.Wrap err) else
     let text :=
       dbProxyTpl
         (Listener_Addr E listener)
         (db_ServiceName database)
         (CACertPathForCluster E profile rootCluster)
         (DatabaseCertPathForCluster E profile (cf_SiteName cf)
            (db_ServiceName database))
         (KeyPath E profile) in
     let* err := call (EvStdout text) (Stdout_Write E text) in
     if err is Some _ then ret (trace.Wrap err) else
     defer (lp_Close lp)
       (let* err :=
          call (EvStart lp (cf_Context cf))
               (LocalProxy_Start E lp (cf_Context cf)) in
        if err is Some _ then ret (trace.Wrap err) else
        ret None)).

(** proxy.go, lines 318-344.  [cert.Certificate[0]] is read only after
    [len(cert.Certificate) < 1] has been excluded, so both are one match
    on the chain. *)
Definition loadAppCertificate (tc : TeleportClient) (appName : string)
    : M (tls_Certificate * error) :=
  let* (key, err) :=
    call (EvGetKey (tc_SiteName tc)) (GetKey E tc (tc_SiteName tc)) in
  if err is Some _ then ret (tls_Certificate_zero, trace.Wrap err) else
  match AppTLSCerts key !! appName with
  | None =>
      ret (tls_Certificate_zero,
           trace.NotFound
             "please login into the application first. 'tsh app login'")
  | Some cc =>
      let '(cert, err) := X509KeyPair E cc (Priv key) in
      if err is Some _ then ret (tls_Certificate_zero, trace.Wrap err) else
      match Certificate cert with
      | [] =>
          ret (tls_Certificate_zero,
               trace.NotFound
                 "invalid certificate - please login to the application again. 'tsh app login'")
      | der :: _ =>
          let '(x509cert, err) := ParseCertificate E der in
          if err is Some _ then ret (tls_Certificate_zero, trace.Wrap err)
          else
          if time.Until (Now E) (NotAfter x509cert) <? 5 * time.Second then
            ret (tls_Certificate_zero,
                 trace.BadParameter
                   ("application " +:+ appName +:+
                    " certificate has expired, please re-login to the app using 'tsh app login'"))
          else ret (cert, None)
      end
  end.

(** proxy.go, lines 261-316. *)
Definition onProxyCommandApp (cf : CLIConf) : M error :=
  let* (tc, err) := call EvMakeClient (makeClient E cf false) in
  if err is Some _ then ret (trace.Wrap err) else
  let* (appCerts, err) := loadAppCertificate tc (cf_AppName cf) in
  if err is Some _ then ret (trace.Wrap err) else
  let '(address, err) := ParseAddr E (tc_WebProxyAddr tc) in
  if err is Some _ then ret (trace.Wrap err) else
  let addr := listenAddr cf in
  let* (listener, err) := call (EvListen "tcp" addr) (Listen E "tcp" addr) in
  if err is Some _ then ret (trace.Wrap err) else
  let cfg :=
    {| Listener_ := Some listener;
       RemoteProxyAddr := tc_WebProxyAddr tc;
       Protocol_ := ProtocolHTTP E;
       InsecureSkipVerify := cf_InsecureSkipVerify cf;
       ParentContext := cf_Context cf;
       SNI := Host E address;
       Certs := [appCerts];
       SSHUser := ""; SSHUserHost := ""; SSHHostKeyCallback := None;
       SSHTrustedCluster := ""; ClientTLSConfig := None |} in
  let* (lp, err) := call (EvNewLocalProxy cfg) (NewLocalProxy E cfg) in
  if err is Some _ then
    let* cerr :=
      call (EvListenerClose listener) (Listener_Close E listener) in
    if cerr is Some _ then ret (trace.NewAggregate [err; cerr]) else
    ret (trace.Wrap err)
  else
  let* _ :=
    emit (EvStdout ("Proxying connections to " +:+ cf_AppName cf +:+ " on "
                    +:+ LocalProxy_GetAddr E lp +:+ newline)) in
  let* _ := emit (EvGoCloseOnDone (cf_Context cf) lp) in
  defer (lp_Close lp)
    (let* err :=
       call (EvStart lp (cf_Context cf))
            (LocalProxy_Start E lp (cf_Context cf)) in
     let* _ :=
       if err is Some _
       then emit (EvLogError err "Failed to start local proxy.")
       else ret tt in
     ret None).

End Proxy.

(* ===================================================================== *)
(** * Shutdown of a proxy session (lib/srv/alpnproxy, not in this file) *)
(* ===================================================================== *)

(** proxy.go only calls [lp.Close()]: once deferred, once from the goroutine
    that waits for the context.  What a close does is decided in the local
    proxy, which is modelled here from the design document (sections 3, 4.3
    and 4.5). *)
Module Shutdown.

(** Modelled from the spec: the Shutdown Coordinator of a session, whose
    code (lib/srv/alpnproxy) is missing.  It owns the listener handle and
    the Active Connection Registry, guarded by a lock, and an "already
    stopped" flag.  [live] is the operating system's view: the connection
    sockets that are open.  Releasing a socket that is not open, and
    taking a lock that is held, are faults ([None]). *)
Record Session : Type := {
  mu : bool;
  stopped : bool;
  listener_open : bool;
  registry : gset nat;
  live : gset nat
}.

(** Modelled from the spec: a session right after construction; the
    constructor of the missing local proxy is given a bound listener. *)
Definition new : Session :=
  {| mu := false; stopped := false; listener_open := true;
     registry := ∅; live := ∅ |}.

(** Modelled from the spec: the "short-held lock" of the registry, whose
    code is missing; taking it while it is held never returns. *)
Definition lock (s : Session) : option Session :=
  if mu s then None
  else Some {| mu := true; stopped := stopped s;
               listener_open := listener_open s;
               registry := registry s; live := live s |}.

(** Modelled from the spec: release of the registry lock (code missing). *)
Definition unlock (s : Session) : Session :=
  {| mu := false; stopped := stopped s; listener_open := listener_open s;
     registry := registry s; live := live s |}.

(** Modelled from the spec: release of the listener socket (code
    missing); a second release is a fault. *)
Definition close_listener (s : Session) : option Session :=
  if listener_open s
  then Some {| mu := mu s; stopped := stopped s; listener_open := false;
               registry := registry s; live := live s |}
  else None.

(** Modelled from the spec: release of one connection socket (code
    missing); releasing a socket that is not open is a fault. *)
Definition close_conn (c : nat) (s : Session) : option Session :=
  if decide (c ∈ live s)
  then Some {| mu := mu s; stopped := stopped s;
               listener_open := listener_open s;
               registry := registry s; live := live s ∖ {[c]} |}
  else None.

(** Modelled from the spec: force-close of the given connections, one
    after the other (code missing). *)
Fixpoint close_all (cs : list nat) (s : Session) : option Session :=
  match cs with
  | [] => Some s
  | c :: cs => s ← close_conn c s; close_all cs s
  end.

(** Modelled from the spec: [stopAll()], whose code is missing: "closes
    the listener exactly once, closes every registered Active Connection
    exactly once, and is safe to invoke repeatedly (an internal already
    stopped flag guards re-entry)". *)
Definition stopAll (s : Session) : option Session :=
  s ← lock s;
  if stopped s then Some (unlock s)
  else
    s ← close_listener s;
    s ← close_all (elements (registry s)) s;
    Some (unlock {| mu := mu s; stopped := true;
                    listener_open := listener_open s;
                    registry := ∅; live := live s |}).

(** Modelled from the spec: the accept loop of the missing [Start]
    registers a connection it accepted ("created on accept"); after the
    listener is closed nothing is accepted. *)
Definition accept (c : nat) (s : Session) : option Session :=
  s ← lock s;
  if stopped s || negb (listener_open s) || bool_decide (c ∈ live s)
  then Some (unlock s)
  else Some (unlock {| mu := mu s; stopped := stopped s;
                       listener_open := listener_open s;
                       registry := {[c]} ∪ registry s;
                       live := {[c]} ∪ live s |}).

(** Modelled from the spec: a connection whose two forwarding directions
    have ended "is removed and discarded" (code missing). *)
Definition finish (c : nat) (s : Session) : option Session :=
  s ← lock s;
  if decide (c ∈ registry s) then
    s ← close_conn c s;
    Some (unlock {| mu := mu s; stopped := stopped s;
                    listener_open := listener_open s;
                    registry := registry s ∖ {[c]}; live := live s |})
  else Some (unlock s).

(** Modelled from the spec: what can happen to a session, each under the
    lock (the operations of the missing local proxy). *)
Inductive op : Type :=
| Accept (c : nat)
| Finish (c : nat)
| StopAll.

(** Modelled from the spec: one operation of the missing local proxy. *)
Definition step (o : op) (s : Session) : option Session :=
  match o with
  | Accept c => accept c s
  | Finish c => finish c s
  | StopAll => stopAll s
  end.

(** Modelled from the spec: a history of operations, oldest first. *)
Fixpoint run (ops : list op) (s : Session) : option Session :=
  match ops with
  | [] => Some s
  | o :: ops => s ← step o s; run ops s
  end.

(** The invariant of a session between operations. *)
Definition inv (s : Session) : Prop :=
  mu s = false ∧
  registry s ⊆ live s ∧
  (stopped s = false → listener_open s = true) ∧
  (stopped s = true → listener_open s = false ∧ registry s = ∅).

End Shutdown.

(** The closes of the proxy [lp] that a command log contains: the ones the
    command runs itself ([EvClose]) and the one its watcher goroutine runs
    when the context is done ([EvGoCloseOnDone]). *)
Definition closes_of (lp : LocalProxy) (log : list Event) : list Shutdown.op :=
  omap (λ e, match e with
             | EvClose lp' | EvGoCloseOnDone _ lp' =>
                 if decide (lp' = lp) then Some Shutdown.StopAll else None
             | _ => None
             end) log.

(* ===================================================================== *)
(** * Specification-side notions *)
(* ===================================================================== *)

(** [r] is [s] with one trailing [suffix] stripped, or [s] itself when [s]
    does not end in [suffix]. *)
Definition stripped_once (suffix s r : string) : Prop :=
  s = r +:+ suffix ∨ (r = s ∧ ∀ b, s ≠ b +:+ suffix).

(** [sub] occurs in [s]. *)
Definition contains (s sub : string) : Prop :=
  ∃ pre post, s = pre +:+ sub +:+ post.

(** Exactly one of the two paths is given. *)
Definition partial_pair (certFile keyFile : string) : Prop :=
  (certFile = "" ∧ keyFile ≠ "") ∨ (certFile ≠ "" ∧ keyFile = "").

(** The command line of the ssh client as the design document describes
    it: [-l <login>] in front exactly when a login is set, the known-hosts
    file, the ssh port and host of the proxy, and the subsystem target
    [proxy:<host>:<port>@<cluster>]. *)
Definition ssh_command_line (login knownHostsPath sshHost : string)
    (sshPort : Z) (host port cluster : string) : list string :=
  (if decide (login = "") then [] else ["-l"; login]) ++
  ["-A"; "-o"; "UserKnownHostsFile=" +:+ knownHostsPath;
   "-p"; Itoa sshPort; sshHost;
   "-s"; "proxy:" +:+ host +:+ ":" +:+ port +:+ "@" +:+ cluster].

(** The configuration the app command asks a local proxy for. *)
Definition app_proxy_config (E : Externs) (cf : CLIConf) (tc : TeleportClient)
    (appCerts : tls_Certificate) (address : NetAddr) (l : Listener)
    : LocalProxyConfig :=
  {| Listener_ := Some l;
     RemoteProxyAddr := tc_WebProxyAddr tc;
     Protocol_ := ProtocolHTTP E;
     InsecureSkipVerify := cf_InsecureSkipVerify cf;
     ParentContext := cf_Context cf;
     SNI := Host E address;
     Certs := [appCerts];
     SSHUser := ""; SSHUserHost := ""; SSHHostKeyCallback := None;
     SSHTrustedCluster := ""; ClientTLSConfig := None |}.

(** The configuration the first [alpnproxy.NewLocalProxy] of a log got. *)
Definition proxy_config (log : list Event) : option LocalProxyConfig :=
  head (omap (λ e, if e is EvNewLocalProxy cfg then Some cfg else None) log).

(** The events of a command that got no further than binding its local
    listener: the client set-up, the bind, the close of the listener and
    the warning about a failed close.  No file is read, no local proxy is
    constructed or started, nothing is printed. *)
Definition bind_only (e : Event) : bool :=
  match e with
  | EvMakeClient | EvListen _ _ | EvListenerClose _ | EvLogWarn _ _ => true
  | _ => false
  end.

(** An event that binds a socket. *)
Definition is_listen (e : Event) : bool :=
  if e is EvListen _ _ then true else false.

(** Classes of events, for statements about what a command does or never
    does. *)
Definition is_listener_close (e : Event) : bool :=
  if e is EvListenerClose _ then true else false.

Definition is_listener_use (e : Event) : bool :=
  match e with
  | EvListen _ _ | EvListenerClose _ => true
  | _ => false
  end.

Definition is_run (e : Event) : bool :=
  if e is EvRun _ then true else false.

Definition is_proxy_use (e : Event) : bool :=
  match e with
  | EvNewLocalProxy _ | EvGoCloseOnDone _ _ | EvStart _ _ | EvSSHProxy _
  | EvClose _ => true
  | _ => false
  end.

(** Every bind of the event is a TCP bind of [addr]. *)
Definition binds_at (addr : string) (e : Event) : Prop :=
  match e with
  | EvListen network a => network = "tcp" ∧ a = addr
  | _ => True
  end.

(** The configuration [sshProxyWithTLSRouting] asks a local proxy for. *)
Definition ssh_proxy_config (E : Externs) (cf : CLIConf) (tc : TeleportClient)
    (targetHost targetPort : string) (address : NetAddr) (pool : CertPool)
    : LocalProxyConfig :=
  {| RemoteProxyAddr := tc_WebProxyAddr tc;
     Protocol_ := ProtocolProxySSH;
     InsecureSkipVerify := cf_InsecureSkipVerify cf;
     ParentContext := cf_Context cf;
     SNI := Host E address;
     SSHUser := tc_HostLogin tc;
     SSHUserHost := targetHost +:+ ":" +:+ targetPort;
     SSHHostKeyCallback := Some (tc_HostKeyCallback tc);
     SSHTrustedCluster := cf_SiteName cf;
     ClientTLSConfig := Some {| RootCAs := pool |};
     Listener_ := None;
     Certs := [] |}.

(** The configuration [mkLocalProxy] asks a local proxy for. *)
Definition db_proxy_config (E : Externs) (ctx : Context)
    (opts : localProxyOpts) (alpnProtocol : Protocol) (address : NetAddr)
    (certs : list tls_Certificate) : LocalProxyConfig :=
  {| InsecureSkipVerify := insecure opts;
     RemoteProxyAddr := proxyAddr opts;
     Protocol_ := alpnProtocol;
     Listener_ := Some (listener opts);
     ParentContext := ctx;
     SNI := Host E address;
     Certs := certs;
     SSHUser := ""; SSHUserHost := ""; SSHHostKeyCallback := None;
     SSHTrustedCluster := ""; ClientTLSConfig := None |}.

(** The options the db command passes to [mkLocalProxy]. *)
Definition db_opts (cf : CLIConf) (client : TeleportClient)
    (database : RouteToDatabase) (l : Listener) : localProxyOpts :=
  {| proxyAddr := tc_WebProxyAddr client;
     protocol := db_Protocol database;
     listener := l;
     insecure := cf_InsecureSkipVerify cf;
     certFile := cf_LocalProxyCertFile cf;
     keyFile := cf_LocalProxyKeyFile cf |}.

(** The banner the db command prints. *)
Definition db_banner (E : Externs) (cf : CLIConf) (database : RouteToDatabase)
    (rootCluster : string) (l : Listener) (profile : ProfileStatus) : string :=
  dbProxyTpl
    (Listener_Addr E l)
    (db_ServiceName database)
    (CACertPathForCluster E profile rootCluster)
    (DatabaseCertPathForCluster E profile (cf_SiteName cf)
       (db_ServiceName database))
    (KeyPath E profile).

(** What the deferred close of the db command's listener leaves in the
    log: the close, and a warning when the close fails. *)
Definition listener_close_log (E : Externs) (l : Listener) : list Event :=
  EvListenerClose l ::
  (if Listener_Close E l is Some _
   then [EvLogWarn (Listener_Close E l) "Failed to close listener."]
   else []).

(* ===================================================================== *)
(** * A concrete run *)
(* ===================================================================== *)

(** One environment to evaluate the commands in: the proxy is
    [proxy.example.com:3080], the cluster [example.com], the credential
    store holds a certificate for the application [grafana]. *)
Module Demo.

Definition tc (login : string) (tlsRouting : bool) : TeleportClient :=
  {| tc_Host := "node1.proxy.example.com:3022";
     tc_WebProxyAddr := "proxy.example.com:3080";
     tc_SiteName := "example.com";
     tc_HostLogin := login;
     tc_TLSRoutingEnabled := tlsRouting;
     tc_KeysDir := "/home/alice/.tsh";
     tc_HostKeyCallback := 1%nat |}.

Definition der : bytes := [Byte.x30; Byte.x82].

Definition key : Key :=
  {| Priv := [Byte.x2d]; AppTLSCerts := {[ "grafana" := der ]} |}.

Definition now : time.Time := 1700000000 * time.Second.

(** [client] is what [makeClient] returns, [notAfter] the expiry of every
    certificate, [newProxy] what [alpnproxy.NewLocalProxy] returns and
    [closeErr] what closing a listener returns. *)
Definition env (client : TeleportClient) (notAfter : time.Time)
    (newProxy : LocalProxy * error) (closeErr : error) : Externs :=
  {| makeClient := λ _ _, (client, None);
     pickActiveDatabase := λ _,
       ({| db_ServiceName := "pg"; db_Protocol := "postgres" |}, None);
     getSSHPath := ("/usr/bin/ssh", None);
     WebProxyHost := λ _, "proxy.example.com";
     SSHProxyHostPort := λ _, ("proxy.example.com", 3023);
     RootClusterName := λ _, ("example.com", None);
     ClientCertPool := λ _ _, (5%nat, None);
     GetKey := λ _ _, (key, None);
     StatusCurrent := λ _ _, (9%nat, None);
     CACertPathForCluster := λ _ cluster, "/home/alice/.tsh/cas/" +:+ cluster;
     DatabaseCertPathForCluster := λ _ _ db, "/home/alice/.tsh/db/" +:+ db;
     KeyPath := λ _, "/home/alice/.tsh/keys/alice";
     FullProfilePath := λ dir, dir;
     KnownHostsPath := λ dir, dir +:+ "/known_hosts";
     ParseAddr := λ a, ({| Addr := a; AddrNetwork := "tcp"; Path := "" |}, None);
     Host := λ a,
       if bool_decide (Addr a = "proxy.example.com:3080")
       then "proxy.example.com" else Addr a;
     ProtocolHTTP := "http/1.1";
     ToALPNProtocol := λ p, ("teleport-" +:+ p, None);
     NewLocalProxy := λ _, newProxy;
     LocalProxy_GetAddr := λ _, "127.0.0.1:41000";
     LocalProxy_Start := λ _ _, None;
     LocalProxy_SSHProxy := λ _, None;
     LocalProxy_Close := λ _, None;
     SplitHostPort := λ hp,
       if bool_decide (hp = "node1.proxy.example.com:3022")
       then ("node1.proxy.example.com", "3022", None)
       else ("", "", Some (ForeignError "missing port in address"));
     Listen := λ _ _, (7%nat, None);
     Listener_Close := λ _, closeErr;
     Listener_Addr := λ _, "127.0.0.1:41000";
     LoadX509KeyPair := λ _ _, (tls_Certificate_zero, None);
     X509KeyPair := λ cert priv,
       ({| Certificate := [cert]; PrivateKey := priv |}, None);
     ParseCertificate := λ _, ({| NotAfter := notAfter |}, None);
     Stdout_Write := λ _, None;
     Run := λ _, Some (ExitError 255);
     Now := now |}.

Definition cf (appName certFile keyFile : string) : CLIConf :=
  {| cf_Context := 3%nat;
     cf_InsecureSkipVerify := false;
     cf_SiteName := "leaf.example.com";
     cf_Proxy := "proxy.example.com";
     cf_HomePath := "/home/alice";
     cf_AppName := appName;
     cf_LocalProxyPort := "";
     cf_LocalProxyCertFile := certFile;
     cf_LocalProxyKeyFile := keyFile |}.

End Demo.

(** The environment [E] with other answers of [makeClient] and of
    [libclient.StatusCurrent], to evaluate runs in which they fail. *)
Definition env_with (E : Externs) (client : TeleportClient * error)
    (status : ProfileStatus * error) : Externs :=
  {| makeClient := λ _ _, client;
     pickActiveDatabase := pickActiveDatabase E;
     getSSHPath := getSSHPath E;
     WebProxyHost := WebProxyHost E;
     SSHProxyHostPort := SSHProxyHostPort E;
     RootClusterName := RootClusterName E;
     ClientCertPool := ClientCertPool E;
     GetKey := GetKey E;
     StatusCurrent := λ _ _, status;
     CACertPathForCluster := CACertPathForCluster E;
     DatabaseCertPathForCluster := DatabaseCertPathForCluster E;
     KeyPath := KeyPath E;
     FullProfilePath := FullProfilePath E;
     KnownHostsPath := KnownHostsPath E;
     ParseAddr := ParseAddr E;
     Host := Host E;
     ProtocolHTTP := ProtocolHTTP E;
     ToALPNProtocol := ToALPNProtocol E;
     NewLocalProxy := NewLocalProxy E;
     LocalProxy_GetAddr := LocalProxy_GetAddr E;
     LocalProxy_Start := LocalProxy_Start E;
     LocalProxy_SSHProxy := LocalProxy_SSHProxy E;
     LocalProxy_Close := LocalProxy_Close E;
     SplitHostPort := SplitHostPort E;
     Listen := Listen E;
     Listener_Close := Listener_Close E;
     Listener_Addr := Listener_Addr E;
     LoadX509KeyPair := LoadX509KeyPair E;
     X509KeyPair := X509KeyPair E;
     ParseCertificate := ParseCertificate E;
     Stdout_Write := Stdout_Write E;
     Run := Run E;
     Now := Now E |}.

(* ===================================================================== *)
(** * Strings: facts about slicing and suffixes *)
(* ===================================================================== *)

Section StringFacts.

Implicit Types s a b suffix : string.

Lemma append_cons x a b : String x a +:+ b = String x (a +:+ b).
Proof. reflexivity. Qed.

Lemma append_assoc a b c : (a +:+ b) +:+ c = a +:+ (b +:+ c).
Proof. induction a as [|x a IH]; [done | by rewrite !append_cons, IH]. Qed.

Lemma length_append a b :
  String.length (a +:+ b) = (String.length a + String.length b)%nat.
Proof.
  induction a as [|x a IH]; [done |].
  rewrite append_cons. simpl. by rewrite IH.
Qed.

Lemma substring_whole s : String.substring 0 (String.length s) s = s.
Proof. induction s as [|x s IH]; simpl; [done | by rewrite IH]. Qed.

Lemma substring_append_l a b :
  String.substring 0 (String.length a) (a +:+ b) = a.
Proof.
  induction a as [|x a IH]; [by destruct b |].
  rewrite append_cons. simpl. by rewrite IH.
Qed.

Lemma substring_append_r a b :
  String.substring (String.length a) (String.length b) (a +:+ b) = b.
Proof.
  induction a as [|x a IH]; [apply substring_whole |].
  by rewrite append_cons.
Qed.

(** A string is its first [k] bytes followed by the rest. *)
Lemma substring_split s k :
  (k ≤ String.length s)%nat →
  s = String.substring 0 k s
      +:+ String.substring k (String.length s - k) s.
Proof.
  revert k. induction s as [|x s IH]; intros [|k] Hk; simpl in *;
    try lia; try done.
  - by rewrite substring_whole.
  - rewrite append_cons. f_equal. apply IH. lia.
Qed.

Lemma HasSuffix_append a suffix : strings.HasSuffix (a +:+ suffix) suffix = true.
Proof.
  unfold strings.HasSuffix, strings.slice. rewrite length_append.
  apply andb_true_iff. split; [apply Nat.leb_le; lia |].
  apply bool_decide_eq_true.
  replace (String.length a + String.length suffix - String.length suffix)%nat
    with (String.length a) by lia.
  replace (String.length a + String.length suffix - String.length a)%nat
    with (String.length suffix) by lia.
  apply substring_append_r.
Qed.

Lemma HasSuffix_true s suffix :
  strings.HasSuffix s suffix = true → ∃ a, s = a +:+ suffix.
Proof.
  unfold strings.HasSuffix, strings.slice.
  intros [Hle Heq%bool_decide_eq_true]%andb_true_iff.
  apply Nat.leb_le in Hle.
  exists (String.substring 0 (String.length s - String.length suffix) s).
  pose proof (substring_split s (String.length s - String.length suffix))
    as Hsplit.
  rewrite Heq in Hsplit. apply Hsplit. lia.
Qed.

Lemma TrimSuffix_append a suffix : strings.TrimSuffix (a +:+ suffix) suffix = a.
Proof.
  unfold strings.TrimSuffix. rewrite HasSuffix_append.
  unfold strings.slice. rewrite length_append.
  replace (String.length a + String.length suffix
           - String.length suffix - 0)%nat
    with (String.length a) by lia.
  apply substring_append_l.
Qed.

Lemma TrimSuffix_stripped_once s suffix :
  stripped_once suffix s (strings.TrimSuffix s suffix).
Proof.
  destruct (strings.HasSuffix s suffix) eqn:Hs.
  - apply HasSuffix_true in Hs as [a ->]. left.
    by rewrite TrimSuffix_append.
  - right. split.
    + unfold strings.TrimSuffix. by rewrite Hs.
    + intros b ->. by rewrite HasSuffix_append in Hs.
Qed.

(** What one stripping yields is determined by the input. *)
Lemma stripped_once_unique suffix s r1 r2 :
  stripped_once suffix s r1 → stripped_once suffix s r2 → r1 = r2.
Proof.
  intros [H1 | [H1 N1]] [H2 | [H2 N2]]; subst.
  - rewrite <- (TrimSuffix_append r1 suffix), <- (TrimSuffix_append r2 suffix).
    by rewrite H2.
  - by destruct (N2 r1).
  - by destruct (N1 r2).
  - done.
Qed.

End StringFacts.

(* ===================================================================== *)
(** * Hostname cleaning *)
(* ===================================================================== *)

(** C4.  For every target host, [cleanTargetHost] first strips one trailing
    [.<proxyHost>] and then, from what is left, one trailing [.<siteName>];
    a suffix that is not there leaves the host as it is.  In particular
    [node1.proxy.example.com] with proxy host [proxy.example.com] and site
    [example.com] is cleaned to [node1]. *)
Theorem cleanTargetHost_strips_proxy_then_site :
  (∀ targetHost proxyHost siteName,
     ∃ h1,
       stripped_once ("." +:+ proxyHost) targetHost h1 ∧
       stripped_once ("." +:+ siteName) h1
         (cleanTargetHost targetHost proxyHost siteName)) ∧
  cleanTargetHost "node1.proxy.example.com" "proxy.example.com" "example.com"
  = "node1".
Proof.
  split; [| reflexivity].
  intros targetHost proxyHost siteName.
  exists (strings.TrimSuffix targetHost ("." +:+ proxyHost)).
  split; apply TrimSuffix_stripped_once.
Qed.

(** The order shows when only one of the two suffixes is trailing. *)
Example cleanTargetHost_order :
  cleanTargetHost "node1.example.com.proxy.example.com"
    "proxy.example.com" "example.com" = "node1" ∧
  cleanTargetHost "node1.proxy.example.com.example.com"
    "proxy.example.com" "example.com" = "node1.proxy.example.com" ∧
  cleanTargetHost "node1.example.com.example.com"
    "proxy.example.com" "example.com" = "node1.example.com".
Proof. repeat split; reflexivity. Qed.

(* ===================================================================== *)
(** * Running the embedded Go code in proofs *)
(* ===================================================================== *)

(** Unfolds the plumbing of [M] so that a command reduces to its result and
    its log. *)
Ltac go_step :=
  unfold defer, lp_Close, bind, call, emit, ret, result, events;
  cbn [fst snd app].

Lemma Wrap_trace_error v : trace.Wrap (Some (TraceErr v)) = Some (TraceErr v).
Proof. reflexivity. Qed.

Lemma Wrap_is_Some e : is_Some e → is_Some (trace.Wrap e).
Proof. intros [v ->]. destruct v; simpl; eauto. Qed.

Lemma Wrap_not_nil v : trace.Wrap (Some v) ≠ None.
Proof. by destruct v. Qed.

Lemma Unwrap_Wrap v w :
  trace.Wrap (Some v) = Some w → trace.Unwrap w = trace.Unwrap v.
Proof. destruct v; simpl; intros [= <-]; reflexivity. Qed.

(* ===================================================================== *)
(** * Certificates from files *)
(* ===================================================================== *)

Lemma mkLocalProxyCerts_partial E certFile keyFile :
  partial_pair certFile keyFile →
  mkLocalProxyCerts E certFile keyFile
  = (([], trace.BadParameter "both --cert-file and --key-file are required"),
     []).
Proof.
  unfold mkLocalProxyCerts.
  intros [[-> Hk] | [Hc ->]].
  - rewrite (bool_decide_eq_false_2 (keyFile = "")) by done.
    rewrite (bool_decide_eq_true_2 (keyFile ≠ "")) by done.
    reflexivity.
  - rewrite (bool_decide_eq_false_2 (certFile = "")) by done.
    rewrite (bool_decide_eq_true_2 (certFile ≠ "")) by done.
    reflexivity.
Qed.

(** With a partial pair the db command cannot get past [mkLocalProxy]. *)
Lemma mkLocalProxy_partial E ctx opts :
  partial_pair (certFile opts) (keyFile opts) →
  ∃ v, result (mkLocalProxy E ctx opts) = (0%nat, Some v) ∧
       events (mkLocalProxy E ctx opts) = [].
Proof.
  intros Hp. unfold mkLocalProxy.
  destruct (ToALPNProtocol E (protocol opts)) as [alpn [v|]].
  { destruct (Wrap_is_Some (Some v)) as [w Hw]; [by eexists |].
    exists w. by rewrite Hw. }
  destruct (ParseAddr E (proxyAddr opts)) as [address [v|]].
  { destruct (Wrap_is_Some (Some v)) as [w Hw]; [by eexists |].
    exists w. by rewrite Hw. }
  rewrite (mkLocalProxyCerts_partial E _ _ Hp). go_step. eauto.
Qed.

Lemma mkLocalProxy_partial_ok E ctx opts alpn address :
  partial_pair (certFile opts) (keyFile opts) →
  ToALPNProtocol E (protocol opts) = (alpn, None) →
  ParseAddr E (proxyAddr opts) = (address, None) →
  mkLocalProxy E ctx opts
  = ((0%nat,
      trace.BadParameter "both --cert-file and --key-file are required"), []).
Proof.
  intros Hp Ha Hd. unfold mkLocalProxy. rewrite Ha, Hd.
  by rewrite (mkLocalProxyCerts_partial E _ _ Hp).
Qed.

(** C1 (amended).  Where exactly one of the certificate path and the key
    path is non-empty, [mkLocalProxyCerts] fails with the parameter error
    "both --cert-file and --key-file are required" and reads no file.  The
    database proxy command binds its local listener before it loads the
    certificates: with such a pair it always fails, it never reads a key
    pair and never constructs or starts a local proxy, and when every step
    before the certificate check succeeds it returns the parameter error
    after the listener has been bound and closed again. *)
Theorem partial_cert_pair_is_a_parameter_error
    (E : Externs) (certFile keyFile : string) :
  partial_pair certFile keyFile →
  mkLocalProxyCerts E certFile keyFile
  = (([], trace.BadParameter "both --cert-file and --key-file are required"),
     [])
  ∧ ∀ cf,
      cf_LocalProxyCertFile cf = certFile →
      cf_LocalProxyKeyFile cf = keyFile →
      result (onProxyCommandDB E cf) ≠ None ∧
      Forall (λ e, bind_only e = true) (events (onProxyCommandDB E cf)) ∧
      ∀ client database rootCluster l alpn address,
        makeClient E cf false = (client, None) →
        pickActiveDatabase E cf = (database, None) →
        RootClusterName E client = (rootCluster, None) →
        Listen E "tcp" (listenAddr cf) = (l, None) →
        ToALPNProtocol E (db_Protocol database) = (alpn, None) →
        ParseAddr E (tc_WebProxyAddr client) = (address, None) →
        result (onProxyCommandDB E cf)
        = trace.BadParameter "both --cert-file and --key-file are required" ∧
        events (onProxyCommandDB E cf)
        = [EvMakeClient; EvListen "tcp" (listenAddr cf); EvListenerClose l]
          ++ (if Listener_Close E l is Some _
              then [EvLogWarn (Listener_Close E l) "Failed to close listener."]
              else []).
Proof.
  intros Hp. split; [by apply mkLocalProxyCerts_partial |].
  intros cf <- <-.
  assert (Hgen :
    result (onProxyCommandDB E cf) ≠ None ∧
    Forall (λ e, bind_only e = true) (events (onProxyCommandDB E cf))).
  { unfold onProxyCommandDB.
    destruct (makeClient E cf false) as [client [v|]]; go_step.
    { split; [apply Wrap_not_nil | repeat constructor]. }
    destruct (pickActiveDatabase E cf) as [database [v|]]; go_step.
    { split; [apply Wrap_not_nil | repeat constructor]. }
    destruct (RootClusterName E client) as [rootCluster [v|]]; go_step.
    { split; [apply Wrap_not_nil | repeat constructor]. }
    destruct (Listen E "tcp" (listenAddr cf)) as [l [v|]]; go_step.
    { split; [apply Wrap_not_nil | repeat constructor]. }
    match goal with
    | |- context [mkLocalProxy E ?ctx ?opts] =>
        destruct (mkLocalProxy_partial E ctx opts Hp) as (w & Hr & He)
    end.
    unfold result, events in Hr, He.
    rewrite Hr, He. simpl.
    split; [apply Wrap_not_nil |].
    destruct (Listener_Close E l); simpl; repeat constructor. }
  destruct Hgen as [Hres Hev].
  split; [exact Hres |]. split; [exact Hev |]. clear Hres Hev.
  intros client database rootCluster l alpn address Hmk Hdb Hroot Hl Ha Hd.
  unfold onProxyCommandDB. rewrite Hmk. go_step. rewrite Hdb, Hroot, Hl.
  go_step.
  match goal with
  | |- context [mkLocalProxy E ?ctx ?opts] =>
      rewrite (mkLocalProxy_partial_ok E ctx opts alpn address Hp Ha Hd)
  end.
  simpl.
  destruct (Listener_Close E l); done.
Qed.

(** C1, at a concrete run: [--cert-file cert.pem] without [--key-file]. *)
Lemma partial_cert_pair_is_a_parameter_error_witness :
  partial_pair "cert.pem" "" ∧
  result (onProxyCommandDB (Demo.env (Demo.tc "alice" true) 0 (1%nat, None) None)
            (Demo.cf "" "cert.pem" ""))
  = trace.BadParameter "both --cert-file and --key-file are required" ∧
  events (onProxyCommandDB (Demo.env (Demo.tc "alice" true) 0 (1%nat, None) None)
            (Demo.cf "" "cert.pem" ""))
  = [EvMakeClient; EvListen "tcp" "localhost:0"; EvListenerClose 7%nat].
Proof.
  assert (Hp : partial_pair "cert.pem" "") by (right; split; [discriminate | reflexivity]).
  split; [exact Hp |].
  destruct (partial_cert_pair_is_a_parameter_error
              (Demo.env (Demo.tc "alice" true) 0 (1%nat, None) None)
              "cert.pem" "" Hp) as [_ Hdb].
  destruct (Hdb (Demo.cf "" "cert.pem" "") eq_refl eq_refl) as (_ & _ & Hrun).
  exact (Hrun (Demo.tc "alice" true)
           {| db_ServiceName := "pg"; db_Protocol := "postgres" |}
           "example.com" 7%nat "teleport-postgres"
           {| Addr := "proxy.example.com:3080"; AddrNetwork := "tcp";
              Path := "" |}
           eq_refl eq_refl eq_refl eq_refl eq_refl eq_refl).
Defined.

(** C1 as stated fails: in the db command the parameter error of a partial
    pair comes after [net.Listen].  With [--cert-file cert.pem] and no key
    file the command returns the parameter error, and its log shows the
    listener bound on [localhost:0] (and closed again) before it returns. *)
Lemma partial_cert_pair_listener_already_bound :
  let r := onProxyCommandDB
             (Demo.env (Demo.tc "alice" true) 0 (1%nat, None) None)
             (Demo.cf "" "cert.pem" "") in
  partial_pair "cert.pem" "" ∧
  trace.IsBadParameter (result r) = true ∧
  events r = [EvMakeClient; EvListen "tcp" "localhost:0"; EvListenerClose 7%nat] ∧
  ¬ Forall (λ e, is_listen e = false) (events r).
Proof.
  simpl. split; [right; split; [discriminate | reflexivity] |].
  split; [reflexivity |]. split; [reflexivity |].
  intros H. apply Forall_cons in H as [_ H]. apply Forall_cons in H as [H _].
  discriminate H.
Qed.

(* ===================================================================== *)
(** * The ssh tunnel over TLS routing *)
(* ===================================================================== *)

(** C2 (amended).  For shell-mode tunnelling over TLS routing the local
    proxy is configured with the protocol token [teleport-proxy-ssh], with
    the host of the web proxy address as SNI, and with the target
    [host:port], the login and the trusted cluster in the configuration
    fields [SSHUserHost], [SSHUser] and [SSHTrustedCluster]; the SNI is the
    same for every target. *)
Theorem ssh_tls_routing_config (E : Externs) (cf : CLIConf)
    (tc : TeleportClient) (targetHost targetPort : string)
    (address : NetAddr) (pool : CertPool) :
  ParseAddr E (tc_WebProxyAddr tc) = (address, None) →
  ClientCertPool E tc (tc_SiteName tc) = (pool, None) →
  ∃ cfg,
    proxy_config (events (sshProxyWithTLSRouting E cf tc targetHost targetPort))
    = Some cfg ∧
    Protocol_ cfg = "teleport-proxy-ssh" ∧
    SNI cfg = Host E address ∧
    SSHUserHost cfg = targetHost +:+ ":" +:+ targetPort ∧
    SSHUser cfg = tc_HostLogin tc ∧
    SSHTrustedCluster cfg = cf_SiteName cf.
Proof.
  intros Hd Hpool. unfold sshProxyWithTLSRouting. rewrite Hd. go_step.
  rewrite Hpool. go_step.
  eexists. split; [reflexivity |]. simpl. repeat split; reflexivity.
Qed.

(** C2, at a concrete run: target [node1:3022], login [alice]. *)
Lemma ssh_tls_routing_config_witness :
  ∃ cfg,
    proxy_config
      (events (sshProxyWithTLSRouting
                 (Demo.env (Demo.tc "alice" true) 0 (1%nat, None) None)
                 (Demo.cf "" "" "") (Demo.tc "alice" true) "node1" "3022"))
    = Some cfg ∧
    Protocol_ cfg = "teleport-proxy-ssh" ∧
    SNI cfg = "proxy.example.com" ∧
    SSHUserHost cfg = "node1:3022" ∧
    SSHUser cfg = "alice" ∧
    SSHTrustedCluster cfg = "leaf.example.com".
Proof.
  exact (ssh_tls_routing_config
           (Demo.env (Demo.tc "alice" true) 0 (1%nat, None) None)
           (Demo.cf "" "" "") (Demo.tc "alice" true) "node1" "3022"
           {| Addr := "proxy.example.com:3080"; AddrNetwork := "tcp";
              Path := "" |} 5%nat eq_refl eq_refl).
Defined.

(** C2 as stated fails: the SNI does not carry the routing payload.  Two
    tunnels to different targets with different logins get the same SNI,
    the plain host of the proxy; what differs are the ssh fields. *)
Lemma sni_does_not_carry_the_target :
  let E := Demo.env (Demo.tc "alice" true) 0 (1%nat, None) None in
  let a := proxy_config
             (events (sshProxyWithTLSRouting E (Demo.cf "" "" "")
                        (Demo.tc "alice" true) "node1" "3022")) in
  let b := proxy_config
             (events (sshProxyWithTLSRouting E (Demo.cf "" "" "")
                        (Demo.tc "root" true) "db7" "22")) in
  SNI <$> a = Some "proxy.example.com" ∧
  SNI <$> b = Some "proxy.example.com" ∧
  SSHUserHost <$> a = Some "node1:3022" ∧
  SSHUserHost <$> b = Some "db7:22" ∧
  SSHUser <$> a = Some "alice" ∧
  SSHUser <$> b = Some "root" ∧
  ¬ ∃ decode : string → string,
      ∀ targetHost targetPort cfg,
        proxy_config
          (events (sshProxyWithTLSRouting E (Demo.cf "" "" "")
                     (Demo.tc "alice" true) targetHost targetPort))
        = Some cfg →
        decode (SNI cfg) = targetHost +:+ ":" +:+ targetPort.
Proof.
  repeat split; try reflexivity.
  intros [decode Hdec].
  pose proof (Hdec "node1" "3022" _ eq_refl) as H1.
  pose proof (Hdec "db7" "22" _ eq_refl) as H2.
  simpl in H1, H2. rewrite H1 in H2. discriminate H2.
Qed.

(* ===================================================================== *)
(** * The cached application certificate *)
(* ===================================================================== *)

(** Saturation does not change a comparison with a bound inside the range of
    a [Duration]. *)
Lemma Until_ltb now t d :
  time.minDuration < d ≤ time.maxDuration →
  (time.Until now t <? d) = (t - now <? d).
Proof.
  unfold time.Until, time.Sub, time.minDuration, time.maxDuration.
  intros Hd.
  destruct (Z.ltb_spec (t - now) (- 2 ^ 63));
    destruct (Z.ltb_spec (2 ^ 63 - 1) (t - now));
    destruct (Z.ltb_spec (t - now) d); try lia;
    symmetry; apply Z.ltb_lt || apply Z.ltb_ge; lia.
Qed.

Lemma five_seconds_in_range :
  time.minDuration < 5 * time.Second ≤ time.maxDuration.
Proof. by compute. Qed.

Lemma contains_intro pre sub post : contains (pre +:+ sub +:+ post) sub.
Proof. by exists pre, post. Qed.

(** C3.  For every cached application certificate whose expiry is less than
    five seconds after the current time (already expired or about to),
    [loadAppCertificate] returns no certificate and the parameter error
    "application <name> certificate has expired, please re-login to the app
    using 'tsh app login'"; it has only read the credential store.  The app
    command returns this error before it binds a listener, constructs the
    local proxy or starts it. *)
Theorem near_expiry_certificate_is_rejected
    (E : Externs) (tc : TeleportClient) (appName : string) (key : Key)
    (cc : bytes) (cert : tls_Certificate) (der : bytes) (chain : list bytes)
    (x509cert : x509_Certificate) :
  GetKey E tc (tc_SiteName tc) = (key, None) →
  AppTLSCerts key !! appName = Some cc →
  X509KeyPair E cc (Priv key) = (cert, None) →
  Certificate cert = der :: chain →
  ParseCertificate E der = (x509cert, None) →
  NotAfter x509cert - Now E < 5 * time.Second →
  let msg :=
    "application " +:+ appName +:+
    " certificate has expired, please re-login to the app using 'tsh app login'"
  in
  loadAppCertificate E tc appName
  = ((tls_Certificate_zero, trace.BadParameter msg),
     [EvGetKey (tc_SiteName tc)]) ∧
  trace.IsBadParameter (trace.BadParameter msg) = true ∧
  contains msg "has expired" ∧
  contains msg "please re-login to the app using 'tsh app login'" ∧
  ∀ cf,
    makeClient E cf false = (tc, None) →
    cf_AppName cf = appName →
    onProxyCommandApp E cf
    = (trace.BadParameter msg, [EvMakeClient; EvGetKey (tc_SiteName tc)]).
Proof.
  intros Hkey Hcc Hpair Hchain Hparse Hnear msg.
  assert (Hload :
    loadAppCertificate E tc appName
    = ((tls_Certificate_zero, trace.BadParameter msg),
       [EvGetKey (tc_SiteName tc)])).
  { unfold loadAppCertificate. rewrite Hkey. go_step.
    rewrite Hcc, Hpair, Hchain, Hparse.
    rewrite (Until_ltb _ _ _ five_seconds_in_range).
    apply Z.ltb_lt in Hnear. by rewrite Hnear. }
  split; [exact Hload |]. split; [reflexivity |].
  split.
  { exists ("application " +:+ appName +:+ " certificate "),
      ", please re-login to the app using 'tsh app login'".
    unfold msg. rewrite !append_assoc. do 2 f_equal. }
  split.
  { exists ("application " +:+ appName +:+ " certificate has expired, "), "".
    unfold msg. rewrite !append_assoc. do 2 f_equal. }
  intros cf Hmk <-. unfold onProxyCommandApp. rewrite Hmk. go_step.
  rewrite Hload. reflexivity.
Qed.

(** C3, at a concrete run: the certificate of [grafana] expires in three
    seconds. *)
Lemma near_expiry_certificate_is_rejected_witness :
  let E := Demo.env (Demo.tc "alice" true) (Demo.now + 3 * time.Second)
             (1%nat, None) None in
  Demo.now + 3 * time.Second - Now E < 5 * time.Second ∧
  loadAppCertificate E (Demo.tc "alice" true) "grafana"
  = ((tls_Certificate_zero,
      trace.BadParameter
        "application grafana certificate has expired, please re-login to the app using 'tsh app login'"),
     [EvGetKey "example.com"]).
Proof.
  split; [reflexivity |].
  exact (proj1 (near_expiry_certificate_is_rejected
                  (Demo.env (Demo.tc "alice" true)
                     (Demo.now + 3 * time.Second) (1%nat, None) None)
                  (Demo.tc "alice" true) "grafana" Demo.key Demo.der
                  {| Certificate := [Demo.der]; PrivateKey := Priv Demo.key |}
                  Demo.der []
                  {| NotAfter := Demo.now + 3 * time.Second |}
                  eq_refl eq_refl eq_refl eq_refl eq_refl eq_refl)).
Defined.

(** A certificate with five seconds or more to live is returned. *)
Lemma valid_certificate_is_returned
    (E : Externs) (tc : TeleportClient) (appName : string) (key : Key)
    (cc : bytes) (cert : tls_Certificate) (der : bytes) (chain : list bytes)
    (x509cert : x509_Certificate) :
  GetKey E tc (tc_SiteName tc) = (key, None) →
  AppTLSCerts key !! appName = Some cc →
  X509KeyPair E cc (Priv key) = (cert, None) →
  Certificate cert = der :: chain →
  ParseCertificate E der = (x509cert, None) →
  5 * time.Second ≤ NotAfter x509cert - Now E →
  loadAppCertificate E tc appName = ((cert, None), [EvGetKey (tc_SiteName tc)]).
Proof.
  intros Hkey Hcc Hpair Hchain Hparse Hfar.
  unfold loadAppCertificate. rewrite Hkey. go_step.
  rewrite Hcc, Hpair, Hchain, Hparse.
  rewrite (Until_ltb _ _ _ five_seconds_in_range).
  apply Z.ltb_ge in Hfar. by rewrite Hfar.
Qed.

(** C5.  If the key the credential store returns holds no TLS certificate
    for the requested application, [loadAppCertificate] returns no
    certificate and the not-found error "please login into the application
    first. 'tsh app login'". *)
Theorem missing_app_certificate_is_not_found
    (E : Externs) (tc : TeleportClient) (appName : string) (key : Key) :
  GetKey E tc (tc_SiteName tc) = (key, None) →
  AppTLSCerts key !! appName = None →
  let msg := "please login into the application first. 'tsh app login'" in
  loadAppCertificate E tc appName
  = ((tls_Certificate_zero, trace.NotFound msg), [EvGetKey (tc_SiteName tc)]) ∧
  (result (loadAppCertificate E tc appName)).1 = tls_Certificate_zero ∧
  trace.IsNotFound (result (loadAppCertificate E tc appName)).2 = true ∧
  trace.Message (result (loadAppCertificate E tc appName)).2 = Some msg ∧
  contains msg "'tsh app login'".
Proof.
  intros Hkey Hnone msg.
  assert (Hload :
    loadAppCertificate E tc appName
    = ((tls_Certificate_zero, trace.NotFound msg),
       [EvGetKey (tc_SiteName tc)])).
  { unfold loadAppCertificate. rewrite Hkey. go_step. by rewrite Hnone. }
  rewrite Hload. repeat split.
  by exists "please login into the application first. ", "".
Qed.

(** C5, at a concrete run: the store holds a certificate for [grafana],
    the user asks for [wiki]. *)
Lemma missing_app_certificate_is_not_found_witness :
  AppTLSCerts Demo.key !! "wiki" = None ∧
  loadAppCertificate
    (Demo.env (Demo.tc "alice" true) 0 (1%nat, None) None)
    (Demo.tc "alice" true) "wiki"
  = ((tls_Certificate_zero,
      trace.NotFound "please login into the application first. 'tsh app login'"),
     [EvGetKey "example.com"]).
Proof.
  split; [reflexivity |].
  exact (proj1 (missing_app_certificate_is_not_found
                  (Demo.env (Demo.tc "alice" true) 0 (1%nat, None) None)
                  (Demo.tc "alice" true) "wiki" Demo.key eq_refl eq_refl)).
Defined.

(* ===================================================================== *)
(** * The ssh client as a child process *)
(* ===================================================================== *)

Lemma Wrap_Wrap e : trace.Wrap (trace.Wrap e) = trace.Wrap e.
Proof. by destruct e as [[]|]. Qed.

Lemma Wrap_nil_iff e : trace.Wrap e = None ↔ e = None.
Proof. by destruct e as [[]|]. Qed.

(** What [sshProxy] does once the ssh binary is found. *)
Lemma sshProxy_run E cf tc targetHost targetPort sshPath :
  getSSHPath E = (sshPath, None) →
  let child :=
    {| cmd_Path := sshPath;
       cmd_Args :=
         sshPath ::
         ssh_command_line (tc_HostLogin tc)
           (KnownHostsPath E (FullProfilePath E (tc_KeysDir tc)))
           (SSHProxyHostPort E tc).1 (SSHProxyHostPort E tc).2
           targetHost targetPort (tc_SiteName tc);
       cmd_Stdin := Some os_Stdin;
       cmd_Stdout := Some os_Stdout;
       cmd_Stderr := Some os_Stderr |} in
  sshProxy E cf tc targetHost targetPort
  = (trace.Wrap (Run E child), [EvRun child]).
Proof.
  intros Hpath. unfold sshProxy, ssh_command_line. rewrite Hpath.
  destruct (SSHProxyHostPort E tc) as [sshHost sshPort].
  go_step. unfold exec_Command. cbn [cmd_Path cmd_Args].
  destruct (decide (tc_HostLogin tc = "")) as [Hl | Hl].
  - by rewrite (bool_decide_eq_false_2 (tc_HostLogin tc ≠ "")) by tauto.
  - by rewrite (bool_decide_eq_true_2 (tc_HostLogin tc ≠ "")) by done.
Qed.

(** C6.  When the proxy has no TLS routing, [tsh proxy ssh] runs the
    external ssh client once.  Its arguments name the known-hosts file
    under the profile directory and end in the subsystem target
    [proxy:<host>:<port>@<cluster>] made of the cleaned target host, the
    target port and the site name; [-l <login>] stands in front exactly
    when a host login is set; the child has the parent's stdin, stdout and
    stderr; and the error of the child's run, its exit status included, is
    what the command returns: [nil] for [nil], and under the trace wrapper
    the very error otherwise. *)
Theorem ssh_subprocess_strategy
    (E : Externs) (cf : CLIConf) (tc : TeleportClient)
    (host port sshPath : string) :
  makeClient E cf false = (tc, None) →
  tc_TLSRoutingEnabled tc = false →
  SplitHostPort E (tc_Host tc) = (host, port, None) →
  getSSHPath E = (sshPath, None) →
  let knownHostsPath := KnownHostsPath E (FullProfilePath E (tc_KeysDir tc)) in
  let target :=
    "proxy:" +:+ cleanTargetHost host (WebProxyHost E tc) (tc_SiteName tc)
    +:+ ":" +:+ port +:+ "@" +:+ tc_SiteName tc in
  let args :=
    (if decide (tc_HostLogin tc = "") then [] else ["-l"; tc_HostLogin tc]) ++
    ["-A"; "-o"; "UserKnownHostsFile=" +:+ knownHostsPath;
     "-p"; Itoa (SSHProxyHostPort E tc).2; (SSHProxyHostPort E tc).1;
     "-s"; target] in
  let child :=
    {| cmd_Path := sshPath; cmd_Args := sshPath :: args;
       cmd_Stdin := Some os_Stdin;
       cmd_Stdout := Some os_Stdout;
       cmd_Stderr := Some os_Stderr |} in
  events (onProxyCommandSSH E cf) = [EvMakeClient; EvRun child] ∧
  last args = Some target ∧
  (result (onProxyCommandSSH E cf) = None ↔ Run E child = None) ∧
  ∀ v, Run E child = Some v →
       ∃ w, result (onProxyCommandSSH E cf) = Some w ∧
            trace.Unwrap w = trace.Unwrap v.
Proof.
  intros Hmk Htls Hsplit Hpath knownHostsPath target args child.
  assert (Hrun :
    onProxyCommandSSH E cf
    = (trace.Wrap (Run E child), [EvMakeClient; EvRun child])).
  { unfold onProxyCommandSSH. rewrite Hmk. go_step.
    rewrite Hsplit, Htls.
    rewrite (sshProxy_run E cf tc _ _ sshPath Hpath).
    cbn [fst snd app]. by rewrite Wrap_Wrap. }
  rewrite Hrun. unfold result, events. cbn [fst snd].
  split; [reflexivity |].
  split; [unfold args; by destruct (decide (tc_HostLogin tc = "")) |].
  split; [apply Wrap_nil_iff |].
  intros v Hv. rewrite Hv.
  destruct (Wrap_is_Some (Some v)) as [w Hw]; [by eexists |].
  exists w. split; [exact Hw |]. by apply Unwrap_Wrap.
Qed.

(** C6, at a concrete run: [tsh proxy ssh alice@node1.proxy.example.com:3022]
    against a proxy without TLS routing; the child exits with status 255. *)
Lemma ssh_subprocess_strategy_witness :
  let E := Demo.env (Demo.tc "alice" false) 0 (1%nat, None) None in
  let child :=
    {| cmd_Path := "/usr/bin/ssh";
       cmd_Args :=
         ["/usr/bin/ssh"; "-l"; "alice"; "-A";
          "-o"; "UserKnownHostsFile=/home/alice/.tsh/known_hosts";
          "-p"; "3023"; "proxy.example.com";
          "-s"; "proxy:node1:3022@example.com"];
       cmd_Stdin := Some os_Stdin;
       cmd_Stdout := Some os_Stdout;
       cmd_Stderr := Some os_Stderr |} in
  tc_TLSRoutingEnabled (Demo.tc "alice" false) = false ∧
  events (onProxyCommandSSH E (Demo.cf "" "" "")) = [EvMakeClient; EvRun child] ∧
  ∃ w, result (onProxyCommandSSH E (Demo.cf "" "" "")) = Some w ∧
       trace.Unwrap w = ExitError 255.
Proof.
  split; [reflexivity |].
  destruct (ssh_subprocess_strategy
              (Demo.env (Demo.tc "alice" false) 0 (1%nat, None) None)
              (Demo.cf "" "" "") (Demo.tc "alice" false)
              "node1.proxy.example.com" "3022" "/usr/bin/ssh"
              eq_refl eq_refl eq_refl eq_refl) as (Hev & _ & _ & Hexit).
  split; [exact Hev |].
  exact (Hexit (ExitError 255) eq_refl).
Defined.

(* ===================================================================== *)
(** * The app command when the proxy cannot be constructed *)
(* ===================================================================== *)

(** C10.  If [alpnproxy.NewLocalProxy] fails in the app command after the
    local listener has been bound, the command closes that listener, as its
    last action, and returns the construction error; if the close fails as
    well it returns the aggregate of both errors.  Nothing is started. *)
Theorem app_proxy_construction_error_closes_listener
    (E : Externs) (cf : CLIConf) (tc : TeleportClient)
    (appCerts : tls_Certificate) (address : NetAddr) (l : Listener)
    (lp : LocalProxy) (err : error_value) :
  makeClient E cf false = (tc, None) →
  result (loadAppCertificate E tc (cf_AppName cf)) = (appCerts, None) →
  ParseAddr E (tc_WebProxyAddr tc) = (address, None) →
  Listen E "tcp" (listenAddr cf) = (l, None) →
  NewLocalProxy E (app_proxy_config E cf tc appCerts address l)
  = (lp, Some err) →
  events (onProxyCommandApp E cf)
  = EvMakeClient :: events (loadAppCertificate E tc (cf_AppName cf)) ++
    [EvListen "tcp" (listenAddr cf);
     EvNewLocalProxy (app_proxy_config E cf tc appCerts address l);
     EvListenerClose l] ∧
  result (onProxyCommandApp E cf)
  = match Listener_Close E l with
    | Some cerr => Some (TraceErr (AggregateError [err; cerr]))
    | None => trace.Wrap (Some err)
    end.
Proof.
  intros Hmk Hload Hd Hl Hnew.
  unfold onProxyCommandApp. rewrite Hmk. go_step.
  destruct (loadAppCertificate E tc (cf_AppName cf)) as [[c e] log].
  unfold result in Hload. cbn [fst] in Hload.
  injection Hload as -> ->. cbn [fst snd].
  rewrite Hd, Hl. cbn [fst snd app].
  fold (app_proxy_config E cf tc appCerts address l).
  rewrite Hnew. cbn [fst snd app].
  destruct (Listener_Close E l) as [cerr |]; cbn [fst snd app].
  - split; reflexivity.
  - split; reflexivity.
Qed.

(** C10, at a concrete run: the proxy cannot be constructed and the close
    of the listener fails too. *)
Lemma app_proxy_construction_error_closes_listener_witness :
  let E := Demo.env (Demo.tc "alice" true) (Demo.now + 3600 * time.Second)
             (0%nat, Some (ForeignError "missing remote proxy address"))
             (Some (ForeignError "use of closed network connection")) in
  NewLocalProxy E
    (app_proxy_config E (Demo.cf "grafana" "" "") (Demo.tc "alice" true)
       {| Certificate := [Demo.der]; PrivateKey := Priv Demo.key |}
       {| Addr := "proxy.example.com:3080"; AddrNetwork := "tcp"; Path := "" |}
       7%nat)
  = (0%nat, Some (ForeignError "missing remote proxy address")) ∧
  events (onProxyCommandApp E (Demo.cf "grafana" "" ""))
  = [EvMakeClient; EvGetKey "example.com"; EvListen "tcp" "localhost:0";
     EvNewLocalProxy
       (app_proxy_config E (Demo.cf "grafana" "" "") (Demo.tc "alice" true)
          {| Certificate := [Demo.der]; PrivateKey := Priv Demo.key |}
          {| Addr := "proxy.example.com:3080"; AddrNetwork := "tcp";
             Path := "" |}
          7%nat);
     EvListenerClose 7%nat] ∧
  result (onProxyCommandApp E (Demo.cf "grafana" "" ""))
  = Some (TraceErr (AggregateError
            [ForeignError "missing remote proxy address";
             ForeignError "use of closed network connection"])).
Proof.
  split; [reflexivity |].
  exact (app_proxy_construction_error_closes_listener
           (Demo.env (Demo.tc "alice" true) (Demo.now + 3600 * time.Second)
              (0%nat, Some (ForeignError "missing remote proxy address"))
              (Some (ForeignError "use of closed network connection")))
           (Demo.cf "grafana" "" "") (Demo.tc "alice" true)
           {| Certificate := [Demo.der]; PrivateKey := Priv Demo.key |}
           {| Addr := "proxy.example.com:3080"; AddrNetwork := "tcp";
              Path := "" |}
           7%nat 0%nat (ForeignError "missing remote proxy address")
           eq_refl eq_refl eq_refl eq_refl eq_refl).
Defined.

(* ===================================================================== *)
(** * Idempotent shutdown *)
(* ===================================================================== *)

Section ShutdownFacts.

Import Shutdown.

Implicit Types s : Session.

Lemma inv_new : inv new.
Proof. unfold inv, new; simpl. repeat split; try done. Qed.

(** Closing distinct open connections never faults, and closes exactly
    those. *)
Lemma close_all_open cs s :
  NoDup cs →
  (∀ c, c ∈ cs → c ∈ live s) →
  ∃ s', close_all cs s = Some s' ∧
        mu s' = mu s ∧ stopped s' = stopped s ∧
        listener_open s' = listener_open s ∧
        registry s' = registry s ∧
        live s' = live s ∖ list_to_set cs.
Proof.
  revert s. induction cs as [|c cs IH]; intros s Hnd Hlive.
  - exists s. simpl. repeat split; try done. set_solver.
  - apply NoDup_cons in Hnd as [Hc Hnd].
    simpl. unfold close_conn at 1.
    destruct (decide (c ∈ live s)) as [_ | Hn];
      [| destruct Hn; apply Hlive; set_solver].
    simpl.
    edestruct (IH {| mu := mu s; stopped := stopped s;
                     listener_open := listener_open s;
                     registry := registry s;
                     live := live s ∖ {[c]} |})
      as (s' & Hrun & Hmu & Hst & Hlo & Hreg & Hlv); [done | |].
    { intros c' Hc'. simpl.
      apply elem_of_difference. split; [apply Hlive; set_solver |].
      set_solver. }
    exists s'. simpl in *. repeat split; try done.
    rewrite Hlv. set_solver.
Qed.

(** A stop from a state between operations never faults. *)
Lemma stopAll_inv s :
  inv s →
  ∃ s1, stopAll s = Some s1 ∧ inv s1 ∧ stopped s1 = true ∧
        live s1 = live s ∖ registry s.
Proof.
  destruct s as [m st lo reg lv]. unfold inv. simpl.
  intros (-> & Hsub & Hopen & Hstopped).
  unfold stopAll, lock. simpl. destruct st; simpl.
  - destruct (Hstopped eq_refl) as [-> ->].
    eexists. split; [reflexivity |]. unfold unlock; simpl.
    split_and!; [done | done | done | done | done | set_solver].
  - rewrite (Hopen eq_refl). unfold close_listener. simpl.
    edestruct (close_all_open (elements reg)
                 {| mu := true; stopped := false; listener_open := false;
                    registry := reg; live := lv |})
      as (s' & Hrun & Hmu & Hst & Hlo & Hreg & Hlv).
    { apply NoDup_elements. }
    { intros c Hc%elem_of_elements. simpl. set_solver. }
    rewrite Hrun. simpl. eexists. split; [reflexivity |].
    unfold unlock; simpl in *. rewrite Hlo, Hlv.
    split_and!; [done | set_solver | done | done | done |].
    by rewrite list_to_set_elements_L.
Qed.

(** A stop of a stopped session changes nothing. *)
Lemma stopAll_stopped s :
  inv s → stopped s = true → stopAll s = Some s.
Proof.
  destruct s as [m st lo reg lv]. unfold inv. simpl.
  intros (-> & _) ->. reflexivity.
Qed.

Lemma accept_inv c s : inv s → ∃ s1, accept c s = Some s1 ∧ inv s1.
Proof.
  destruct s as [m st lo reg lv]. unfold inv. simpl.
  intros (-> & Hsub & Hopen & Hstopped).
  unfold accept, lock. simpl.
  destruct (st || negb lo || bool_decide (c ∈ lv)) eqn:Hguard; simpl.
  - eexists. split; [reflexivity |]. unfold unlock; simpl.
    split_and!; done.
  - apply orb_false_iff in Hguard as [[-> Hlo]%orb_false_iff _].
    apply negb_false_iff in Hlo as ->.
    eexists. split; [reflexivity |]. unfold unlock; simpl.
    split_and!; [done | set_solver | done | done].
Qed.

Lemma finish_inv c s : inv s → ∃ s1, finish c s = Some s1 ∧ inv s1.
Proof.
  destruct s as [m st lo reg lv]. unfold inv. simpl.
  intros (-> & Hsub & Hopen & Hstopped).
  unfold finish, lock. simpl.
  destruct (decide (c ∈ reg)) as [Hin | Hout]; simpl.
  - unfold close_conn. simpl.
    destruct (decide (c ∈ lv)) as [_ | Hn]; [| set_solver]. simpl.
    eexists. split; [reflexivity |]. unfold unlock; simpl.
    split_and!; [done | set_solver | done |].
    intros Hst. destruct (Hstopped Hst) as [-> ->].
    split; [done | set_solver].
  - eexists. split; [reflexivity |]. unfold unlock; simpl.
    split_and!; done.
Qed.

Lemma step_inv o s : inv s → ∃ s1, step o s = Some s1 ∧ inv s1.
Proof.
  intros Hs. destruct o as [c | c |]; simpl.
  - by apply accept_inv.
  - by apply finish_inv.
  - destruct (stopAll_inv s Hs) as (s1 & ? & ? & _). eauto.
Qed.

(** No sequence of operations faults. *)
Lemma run_inv ops s : inv s → ∃ s1, run ops s = Some s1 ∧ inv s1.
Proof.
  revert s. induction ops as [|o ops IH]; intros s Hs; simpl.
  - eauto.
  - destruct (step_inv o s Hs) as (s1 & -> & Hs1). simpl. by apply IH.
Qed.

End ShutdownFacts.

(** C8.  Shutdown is idempotent.  Whatever has happened to a session
    (connections accepted and finished, earlier stops, in any order), a
    stop succeeds: it takes the lock and gives it back, leaves the listener
    closed and the registry empty, and has closed every connection that was
    registered, none of them twice.  A second stop succeeds as well and
    changes nothing. *)
Theorem stopAll_twice_is_stopAll_once (ops : list Shutdown.op) :
  ∃ s s1,
    Shutdown.run ops Shutdown.new = Some s ∧
    Shutdown.stopAll s = Some s1 ∧
    Shutdown.stopAll s1 = Some s1 ∧
    Shutdown.run [Shutdown.StopAll; Shutdown.StopAll] s = Some s1 ∧
    Shutdown.mu s1 = false ∧
    Shutdown.stopped s1 = true ∧
    Shutdown.listener_open s1 = false ∧
    Shutdown.registry s1 = ∅ ∧
    ∀ c, c ∈ Shutdown.registry s → c ∉ Shutdown.live s1.
Proof.
  destruct (run_inv ops Shutdown.new inv_new) as (s & Hrun & Hs).
  destruct (stopAll_inv s Hs) as (s1 & Hstop & Hs1 & Hst & Hlv).
  pose proof (stopAll_stopped s1 Hs1 Hst) as Hagain.
  exists s, s1.
  destruct Hs1 as (Hmu & _ & _ & Hclosed).
  destruct (Hclosed Hst) as [Hlo Hreg].
  repeat split; try done.
  - simpl. rewrite Hstop. simpl. rewrite Hagain. done.
  - intros c Hc. rewrite Hlv. set_solver.
Qed.

(** [loadAppCertificate] reads the credential store and does nothing else. *)
Lemma loadAppCertificate_events E tc appName :
  events (loadAppCertificate E tc appName) = [EvGetKey (tc_SiteName tc)].
Proof.
  unfold loadAppCertificate.
  destruct (GetKey E tc (tc_SiteName tc)) as [key [v|]]; go_step; [done |].
  destruct (AppTLSCerts key !! appName) as [cc|]; [| done].
  destruct (X509KeyPair E cc (Priv key)) as [cert [v|]]; [done |].
  destruct (Certificate cert) as [|der chain]; [done |].
  destruct (ParseCertificate E der) as [x509cert [v|]]; [done |].
  by destruct (time.Until (Now E) (NotAfter x509cert) <? 5 * time.Second).
Qed.

(** Where the two stops of C8 come from: once its local proxy is
    constructed, the app command hands one [lp.Close()] to the goroutine
    that waits for the context and runs another one itself when [Start]
    returns. *)
Lemma app_command_closes_proxy_twice
    (E : Externs) (cf : CLIConf) (tc : TeleportClient)
    (appCerts : tls_Certificate) (address : NetAddr) (l : Listener)
    (lp : LocalProxy) :
  makeClient E cf false = (tc, None) →
  result (loadAppCertificate E tc (cf_AppName cf)) = (appCerts, None) →
  ParseAddr E (tc_WebProxyAddr tc) = (address, None) →
  Listen E "tcp" (listenAddr cf) = (l, None) →
  NewLocalProxy E (app_proxy_config E cf tc appCerts address l) = (lp, None) →
  closes_of lp (events (onProxyCommandApp E cf))
  = [Shutdown.StopAll; Shutdown.StopAll] ∧
  last (events (onProxyCommandApp E cf)) = Some (EvClose lp).
Proof.
  intros Hmk Hload Hd Hl Hnew.
  pose proof (loadAppCertificate_events E tc (cf_AppName cf)) as Hev.
  unfold onProxyCommandApp. rewrite Hmk. go_step.
  destruct (loadAppCertificate E tc (cf_AppName cf)) as [[c e] log].
  unfold result in Hload. unfold events in Hev. cbn [fst snd] in Hload, Hev.
  injection Hload as -> ->. subst log. cbn [fst snd].
  rewrite Hd, Hl. cbn [fst snd app].
  fold (app_proxy_config E cf tc appCerts address l).
  rewrite Hnew. cbn [fst snd app].
  destruct (LocalProxy_Start E lp (cf_Context cf)) as [v|];
    unfold closes_of; cbn [fst snd app omap list_omap last];
    rewrite !decide_True by done; done.
Qed.

(* ===================================================================== *)
(** * More on hostname cleaning *)
(* ===================================================================== *)

Lemma append_empty_r (a : string) : a +:+ "" = a.
Proof. induction a as [|x a IH]; [done | by rewrite append_cons, IH]. Qed.

Lemma TrimSuffix_no_suffix s suffix :
  strings.HasSuffix s suffix = false → strings.TrimSuffix s suffix = s.
Proof. unfold strings.TrimSuffix. by intros ->. Qed.

(** What [strings.TrimSuffix] removes is the suffix or nothing. *)
Lemma TrimSuffix_removed s suffix :
  ∃ rest, s = strings.TrimSuffix s suffix +:+ rest ∧
          (rest = "" ∨ rest = suffix).
Proof.
  destruct (TrimSuffix_stripped_once s suffix) as [H | [H _]].
  - exists suffix. by split; [| right].
  - exists "". rewrite H, append_empty_r. by split; [| left].
Qed.

(** [cleanTargetHost] only ever cuts at the end: the input is the cleaned
    host followed by nothing, by [.<siteName>], by [.<proxyHost>], or by
    [.<siteName>.<proxyHost>]. *)
Theorem cleanTargetHost_cuts_a_tail (targetHost proxyHost siteName : string) :
  ∃ site_part proxy_part,
    targetHost
    = cleanTargetHost targetHost proxyHost siteName
      +:+ site_part +:+ proxy_part ∧
    (site_part = "" ∨ site_part = "." +:+ siteName) ∧
    (proxy_part = "" ∨ proxy_part = "." +:+ proxyHost).
Proof.
  unfold cleanTargetHost.
  destruct (TrimSuffix_removed targetHost ("." +:+ proxyHost))
    as (b & Hb & Hb').
  destruct (TrimSuffix_removed
              (strings.TrimSuffix targetHost ("." +:+ proxyHost))
              ("." +:+ siteName)) as (a & Ha & Ha').
  exists a, b. split; [| done].
  rewrite <- append_assoc, <- Ha. exact Hb.
Qed.

(** A node name followed by the site and the proxy host is cleaned back to
    the node name, whatever the three names are. *)
Theorem cleanTargetHost_of_decorated_name (node proxyHost siteName : string) :
  cleanTargetHost (node +:+ "." +:+ siteName +:+ "." +:+ proxyHost)
    proxyHost siteName
  = node.
Proof.
  unfold cleanTargetHost.
  replace (node +:+ "." +:+ siteName +:+ "." +:+ proxyHost)
    with ((node +:+ "." +:+ siteName) +:+ "." +:+ proxyHost)
    by (by rewrite !append_assoc).
  by rewrite !TrimSuffix_append.
Qed.

(** A host that carries only the site suffix loses it; a host that carries
    neither suffix is returned as it is. *)
Theorem cleanTargetHost_without_proxy_suffix
    (targetHost proxyHost siteName : string) :
  strings.HasSuffix targetHost ("." +:+ proxyHost) = false →
  (∀ node, targetHost = node +:+ "." +:+ siteName →
           cleanTargetHost targetHost proxyHost siteName = node) ∧
  (strings.HasSuffix targetHost ("." +:+ siteName) = false →
   cleanTargetHost targetHost proxyHost siteName = targetHost).
Proof.
  intros Hp. unfold cleanTargetHost. rewrite (TrimSuffix_no_suffix _ _ Hp).
  split.
  - intros node ->. apply TrimSuffix_append.
  - apply TrimSuffix_no_suffix.
Qed.

Lemma cleanTargetHost_without_proxy_suffix_witness :
  strings.HasSuffix "node1.example.com" ".proxy.example.com" = false ∧
  cleanTargetHost "node1.example.com" "proxy.example.com" "example.com"
  = "node1".
Proof.
  split; [reflexivity |].
  exact (proj1 (cleanTargetHost_without_proxy_suffix
                  "node1.example.com" "proxy.example.com" "example.com"
                  eq_refl) "node1" eq_refl).
Defined.

(* ===================================================================== *)
(** * More on certificates from files and on [mkLocalProxy] *)
(* ===================================================================== *)

(** The three ways through [mkLocalProxyCerts]. *)
Lemma mkLocalProxyCerts_cases E certFile keyFile :
  (certFile = "" ∧ keyFile = "" ∧
   mkLocalProxyCerts E certFile keyFile = (([], None), []))
  ∨ (partial_pair certFile keyFile ∧
     mkLocalProxyCerts E certFile keyFile
     = (([], trace.BadParameter
               "both --cert-file and --key-file are required"), []))
  ∨ (certFile ≠ "" ∧ keyFile ≠ "" ∧
     mkLocalProxyCerts E certFile keyFile
     = (match LoadX509KeyPair E certFile keyFile with
        | (_, Some v) => ([], trace.Wrap (Some v))
        | (cert, None) => ([cert], None)
        end, [EvReadKeyPair certFile keyFile])).
Proof.
  destruct (decide (certFile = "")) as [Hc | Hc];
    destruct (decide (keyFile = "")) as [Hk | Hk].
  - left. subst. done.
  - right; left. split; [by left |].
    apply mkLocalProxyCerts_partial. by left.
  - right; left. split; [by right |].
    apply mkLocalProxyCerts_partial. by right.
  - right; right. split; [done |]. split; [done |].
    unfold mkLocalProxyCerts.
    rewrite (bool_decide_eq_false_2 (certFile = "")) by done.
    rewrite (bool_decide_eq_false_2 (keyFile = "")) by done.
    cbn [andb orb].
    rewrite (bool_decide_eq_true_2 (certFile ≠ "")) by done.
    cbn [andb orb].
    destruct (LoadX509KeyPair E certFile keyFile) as [cert [v|]]; done.
Qed.

(** [mkLocalProxyCerts] never returns a certificate together with an error
    and never more than one certificate; it returns no certificate without
    an error exactly when both paths are empty; and it reads files only
    when both paths are given. *)
Theorem mkLocalProxyCerts_outcomes
    (E : Externs) (certFile keyFile : string) :
  let r := mkLocalProxyCerts E certFile keyFile in
  ((result r).2 = None ∨ (result r).1 = []) ∧
  (length (result r).1 ≤ 1)%nat ∧
  ((result r).2 = None ∧ (result r).1 = [] ↔ certFile = "" ∧ keyFile = "") ∧
  (events r = [] ∨
   (events r = [EvReadKeyPair certFile keyFile] ∧
    certFile ≠ "" ∧ keyFile ≠ "")).
Proof.
  destruct (mkLocalProxyCerts_cases E certFile keyFile)
    as [(-> & -> & Hr) | [(Hp & Hr) | (Hc & Hk & Hr)]];
    cbv zeta; rewrite Hr; unfold result, events; cbn [fst snd length].
  - split_and!; [by left | lia | done | by left].
  - split_and!; [by right | lia | | by left].
    split; [intros [[=] _] |].
    intros [-> ->]. destruct Hp as [[_ ?] | [? _]]; done.
  - destruct (LoadX509KeyPair E certFile keyFile) as [cert [v|]];
      cbn [fst snd length].
    + split_and!; [by right | lia | | by right].
      split; [intros [H _]; by apply Wrap_not_nil in H | by intros [? _]].
    + split_and!; [by left | lia | | by right].
      split; [by intros [_ [=]] | by intros [? _]].
Qed.

(** If [mkLocalProxy] gets as far as asking for a local proxy, then the
    protocol name and the proxy address were accepted and the certificate
    pair is not partial; the requested proxy uses the caller's listener,
    context and verification flag, the translated protocol, the host of the
    proxy address as SNI, no ssh settings, and at most one certificate:
    none exactly when no certificate files were given. *)
Theorem mkLocalProxy_request
    (E : Externs) (ctx : Context) (opts : localProxyOpts)
    (cfg : LocalProxyConfig) :
  proxy_config (events (mkLocalProxy E ctx opts)) = Some cfg →
  ∃ alpn address certs,
    ToALPNProtocol E (protocol opts) = (alpn, None) ∧
    ParseAddr E (proxyAddr opts) = (address, None) ∧
    ¬ partial_pair (certFile opts) (keyFile opts) ∧
    cfg = db_proxy_config E ctx opts alpn address certs ∧
    (length certs ≤ 1)%nat ∧
    (certs = [] ↔ certFile opts = "" ∧ keyFile opts = "").
Proof.
  unfold mkLocalProxy.
  destruct (ToALPNProtocol E (protocol opts)) as [alpn [v|]];
    [intros [=] |].
  destruct (ParseAddr E (proxyAddr opts)) as [address [v|]];
    [intros [=] |].
  destruct (mkLocalProxyCerts_cases E (certFile opts) (keyFile opts))
    as [(Hc & Hk & Hr) | [(Hp & Hr) | (Hc & Hk & Hr)]];
    rewrite Hr; go_step.
  - fold (db_proxy_config E ctx opts alpn address []).
    destruct (NewLocalProxy E _) as [lp [v|]]; cbn; intros [= <-];
      exists alpn, address, []; split_and!; try done;
      try (simpl; lia);
      intros [[? ?] | [? ?]]; congruence.
  - intros [=].
  - destruct (LoadX509KeyPair E (certFile opts) (keyFile opts))
      as [cert [v|]]; cbn [fst snd app].
    { destruct (trace.Wrap (Some v)) eqn:Hw; [intros [=] |].
      by apply Wrap_not_nil in Hw. }
    fold (db_proxy_config E ctx opts alpn address [cert]).
    destruct (NewLocalProxy E _) as [lp [v|]]; cbn; intros [= <-];
      exists alpn, address, [cert]; split_and!; try done;
      try (simpl; lia);
      try (intros [[? ?] | [? ?]]; congruence);
      (split; [intros [=] | intros [? _]; congruence]).
Qed.

Lemma mkLocalProxy_request_witness :
  let E := Demo.env (Demo.tc "alice" true) 0 (1%nat, None) None in
  let opts := db_opts (Demo.cf "" "" "") (Demo.tc "alice" true)
                {| db_ServiceName := "pg"; db_Protocol := "postgres" |}
                7%nat in
  proxy_config (events (mkLocalProxy E 3%nat opts))
  = Some (db_proxy_config E 3%nat opts "teleport-postgres"
            {| Addr := "proxy.example.com:3080"; AddrNetwork := "tcp";
               Path := "" |} []) ∧
  ∃ alpn address certs,
    ToALPNProtocol E (protocol opts) = (alpn, None) ∧
    ParseAddr E (proxyAddr opts) = (address, None) ∧
    ¬ partial_pair (certFile opts) (keyFile opts) ∧
    db_proxy_config E 3%nat opts "teleport-postgres"
      {| Addr := "proxy.example.com:3080"; AddrNetwork := "tcp";
         Path := "" |} []
    = db_proxy_config E 3%nat opts alpn address certs ∧
    (length certs ≤ 1)%nat ∧
    (certs = [] ↔ certFile opts = "" ∧ keyFile opts = "").
Proof.
  split; [reflexivity |].
  exact (mkLocalProxy_request
           (Demo.env (Demo.tc "alice" true) 0 (1%nat, None) None) 3%nat
           (db_opts (Demo.cf "" "" "") (Demo.tc "alice" true)
              {| db_ServiceName := "pg"; db_Protocol := "postgres" |} 7%nat)
           _ eq_refl).
Defined.

(* ===================================================================== *)
(** * More on the cached application certificate *)
(* ===================================================================== *)

Lemma Until_ge now t :
  (time.Until now t <? 5 * time.Second) = false → 5 * time.Second ≤ t - now.
Proof.
  rewrite (Until_ltb _ _ _ five_seconds_in_range). apply Z.ltb_ge.
Qed.

(** A certificate that [loadAppCertificate] returns without error is sound:
    it is the key pair made of the stored certificate of that application
    and the stored private key, its chain is not empty, its leaf parses,
    and the leaf expires five seconds from now or later. *)
Theorem loadAppCertificate_success_is_valid
    (E : Externs) (tc : TeleportClient) (appName : string)
    (cert : tls_Certificate) :
  result (loadAppCertificate E tc appName) = (cert, None) →
  ∃ key cc der chain x509cert,
    GetKey E tc (tc_SiteName tc) = (key, None) ∧
    AppTLSCerts key !! appName = Some cc ∧
    X509KeyPair E cc (Priv key) = (cert, None) ∧
    Certificate cert = der :: chain ∧
    ParseCertificate E der = (x509cert, None) ∧
    5 * time.Second ≤ NotAfter x509cert - Now E.
Proof.
  unfold loadAppCertificate.
  destruct (GetKey E tc (tc_SiteName tc)) as [key [v|]] eqn:Hkey; go_step.
  { intros [= _ H]. by apply Wrap_not_nil in H. }
  destruct (AppTLSCerts key !! appName) as [cc|] eqn:Hcc; [| intros [=]].
  destruct (X509KeyPair E cc (Priv key)) as [c [v|]] eqn:Hpair.
  { intros [= _ H]. by apply Wrap_not_nil in H. }
  destruct (Certificate c) as [|der chain] eqn:Hchain; [intros [=] |].
  destruct (ParseCertificate E der) as [x [v|]] eqn:Hparse.
  { intros [= _ H]. by apply Wrap_not_nil in H. }
  destruct (time.Until (Now E) (NotAfter x) <? 5 * time.Second) eqn:Hnear;
    [intros [=] |].
  intros [= ->]. exists key, cc, der, chain, x.
  split_and!; try done. by apply Until_ge.
Qed.

Lemma loadAppCertificate_success_is_valid_witness :
  let E := Demo.env (Demo.tc "alice" true) (Demo.now + 60 * time.Second)
             (1%nat, None) None in
  let cert := {| Certificate := [Demo.der]; PrivateKey := Priv Demo.key |} in
  result (loadAppCertificate E (Demo.tc "alice" true) "grafana")
  = (cert, None) ∧
  ∃ key cc der chain x509cert,
    GetKey E (Demo.tc "alice" true) (tc_SiteName (Demo.tc "alice" true))
    = (key, None) ∧
    AppTLSCerts key !! "grafana" = Some cc ∧
    X509KeyPair E cc (Priv key) = (cert, None) ∧
    Certificate cert = der :: chain ∧
    ParseCertificate E der = (x509cert, None) ∧
    5 * time.Second ≤ NotAfter x509cert - Now E.
Proof.
  split; [reflexivity |].
  exact (loadAppCertificate_success_is_valid
           (Demo.env (Demo.tc "alice" true) (Demo.now + 60 * time.Second)
              (1%nat, None) None)
           (Demo.tc "alice" true) "grafana"
           {| Certificate := [Demo.der]; PrivateKey := Priv Demo.key |}
           eq_refl).
Defined.

(** On every path [loadAppCertificate] reads the credential store once and
    does nothing else, and whenever it returns an error the certificate it
    returns is the zero value. *)
Theorem loadAppCertificate_reads_the_store_only
    (E : Externs) (tc : TeleportClient) (appName : string) :
  events (loadAppCertificate E tc appName) = [EvGetKey (tc_SiteName tc)] ∧
  ((result (loadAppCertificate E tc appName)).2 = None ∨
   (result (loadAppCertificate E tc appName)).1 = tls_Certificate_zero).
Proof.
  split; [apply loadAppCertificate_events |].
  unfold loadAppCertificate.
  destruct (GetKey E tc (tc_SiteName tc)) as [key [v|]]; go_step;
    [by right |].
  destruct (AppTLSCerts key !! appName) as [cc|]; [| by right].
  destruct (X509KeyPair E cc (Priv key)) as [cert [v|]]; [by right |].
  destruct (Certificate cert) as [|der chain]; [by right |].
  destruct (ParseCertificate E der) as [x509cert [v|]]; [by right |].
  destruct (time.Until (Now E) (NotAfter x509cert) <? 5 * time.Second);
    [by right | by left].
Qed.

(** The five-second bound is sharp: a certificate with exactly five seconds
    to live is returned. *)
Lemma valid_certificate_is_returned_witness :
  let E := Demo.env (Demo.tc "alice" true) (Demo.now + 5 * time.Second)
             (1%nat, None) None in
  5 * time.Second ≤ Demo.now + 5 * time.Second - Now E ∧
  loadAppCertificate E (Demo.tc "alice" true) "grafana"
  = (({| Certificate := [Demo.der]; PrivateKey := Priv Demo.key |}, None),
     [EvGetKey "example.com"]).
Proof.
  split; [by compute |].
  exact (valid_certificate_is_returned
           (Demo.env (Demo.tc "alice" true) (Demo.now + 5 * time.Second)
              (1%nat, None) None)
           (Demo.tc "alice" true) "grafana" Demo.key Demo.der
           {| Certificate := [Demo.der]; PrivateKey := Priv Demo.key |}
           Demo.der []
           {| NotAfter := Demo.now + 5 * time.Second |}
           eq_refl eq_refl eq_refl eq_refl eq_refl
           ltac:(by compute)).
Defined.

(* ===================================================================== *)
(** * More on the app command *)
(* ===================================================================== *)

(** The app command binds its listener only after the client is made, the
    application certificate is loaded and validated, and the proxy address
    is parsed: on every other path its log contains no bind. *)
Theorem app_command_validates_before_binding (E : Externs) (cf : CLIConf) :
  Forall (λ e, is_listen e = false) (events (onProxyCommandApp E cf)) ∨
  ∃ tc appCerts address,
    makeClient E cf false = (tc, None) ∧
    result (loadAppCertificate E tc (cf_AppName cf)) = (appCerts, None) ∧
    ParseAddr E (tc_WebProxyAddr tc) = (address, None).
Proof.
  unfold onProxyCommandApp.
  destruct (makeClient E cf false) as [tc [v|]] eqn:Hmk; go_step.
  { left. repeat constructor. }
  pose proof (loadAppCertificate_events E tc (cf_AppName cf)) as Hev.
  destruct (loadAppCertificate E tc (cf_AppName cf)) as [[c e] log] eqn:Hload.
  unfold events in Hev. cbn [fst snd] in Hev. subst log. cbn [fst snd app].
  destruct e as [v|]; cbn [fst snd app].
  { left. repeat constructor. }
  destruct (ParseAddr E (tc_WebProxyAddr tc)) as [address [v|]] eqn:Hd;
    cbn [fst snd app].
  { left. repeat constructor. }
  right. exists tc, c, address. by rewrite Hload.
Qed.

(** Whatever error [loadAppCertificate] returns, the app command returns it
    (under the trace wrapper) and has done nothing but make the client and
    read the credential store. *)
Theorem app_command_stops_on_certificate_error
    (E : Externs) (cf : CLIConf) (tc : TeleportClient) (v : error_value) :
  makeClient E cf false = (tc, None) →
  (result (loadAppCertificate E tc (cf_AppName cf))).2 = Some v →
  onProxyCommandApp E cf
  = (trace.Wrap (Some v), [EvMakeClient; EvGetKey (tc_SiteName tc)]).
Proof.
  intros Hmk Herr.
  pose proof (loadAppCertificate_events E tc (cf_AppName cf)) as Hev.
  unfold onProxyCommandApp. rewrite Hmk. go_step.
  destruct (loadAppCertificate E tc (cf_AppName cf)) as [[c e] log].
  unfold result in Herr. unfold events in Hev. cbn [fst snd] in Herr, Hev.
  subst. reflexivity.
Qed.

Lemma app_command_stops_on_certificate_error_witness :
  let E := Demo.env (Demo.tc "alice" true) 0 (1%nat, None) None in
  (result (loadAppCertificate E (Demo.tc "alice" true) "wiki")).2
  = Some (TraceErr (NotFoundError
            "please login into the application first. 'tsh app login'")) ∧
  onProxyCommandApp E (Demo.cf "wiki" "" "")
  = (Some (TraceErr (NotFoundError
             "please login into the application first. 'tsh app login'")),
     [EvMakeClient; EvGetKey "example.com"]).
Proof.
  split; [reflexivity |].
  exact (app_command_stops_on_certificate_error
           (Demo.env (Demo.tc "alice" true) 0 (1%nat, None) None)
           (Demo.cf "wiki" "" "") (Demo.tc "alice" true)
           (TraceErr (NotFoundError
              "please login into the application first. 'tsh app login'"))
           eq_refl eq_refl).
Defined.

(** Once its local proxy is constructed the app command announces the
    address the proxy listens on, starts the watcher, runs the proxy and
    closes it when [Start] returns.  It returns [nil] whatever [Start]
    returns: an error of [Start] is only logged.  It never closes the
    listener itself. *)
Theorem app_command_run
    (E : Externs) (cf : CLIConf) (tc : TeleportClient)
    (appCerts : tls_Certificate) (address : NetAddr) (l : Listener)
    (lp : LocalProxy) :
  makeClient E cf false = (tc, None) →
  result (loadAppCertificate E tc (cf_AppName cf)) = (appCerts, None) →
  ParseAddr E (tc_WebProxyAddr tc) = (address, None) →
  Listen E "tcp" (listenAddr cf) = (l, None) →
  NewLocalProxy E (app_proxy_config E cf tc appCerts address l) = (lp, None) →
  result (onProxyCommandApp E cf) = None ∧
  events (onProxyCommandApp E cf)
  = [EvMakeClient; EvGetKey (tc_SiteName tc);
     EvListen "tcp" (listenAddr cf);
     EvNewLocalProxy (app_proxy_config E cf tc appCerts address l);
     EvStdout ("Proxying connections to " +:+ cf_AppName cf +:+ " on "
               +:+ LocalProxy_GetAddr E lp +:+ newline);
     EvGoCloseOnDone (cf_Context cf) lp;
     EvStart lp (cf_Context cf)]
    ++ (if LocalProxy_Start E lp (cf_Context cf) is Some _
        then [EvLogError (LocalProxy_Start E lp (cf_Context cf))
                "Failed to start local proxy."]
        else [])
    ++ [EvClose lp] ∧
  Forall (λ e, is_listener_close e = false) (events (onProxyCommandApp E cf)).
Proof.
  intros Hmk Hload Hd Hl Hnew.
  pose proof (loadAppCertificate_events E tc (cf_AppName cf)) as Hev.
  unfold onProxyCommandApp. rewrite Hmk. go_step.
  destruct (loadAppCertificate E tc (cf_AppName cf)) as [[c e] log].
  unfold result in Hload. unfold events in Hev. cbn [fst snd] in Hload, Hev.
  injection Hload as -> ->. subst log. cbn [fst snd].
  rewrite Hd, Hl. cbn [fst snd app].
  fold (app_proxy_config E cf tc appCerts address l).
  rewrite Hnew. cbn [fst snd app].
  destruct (LocalProxy_Start E lp (cf_Context cf)) as [v|];
    cbn [fst snd app]; split_and!; try reflexivity; repeat constructor.
Qed.

Lemma app_command_run_witness :
  let E := Demo.env (Demo.tc "alice" true) (Demo.now + 60 * time.Second)
             (4%nat, None) None in
  NewLocalProxy E
    (app_proxy_config E (Demo.cf "grafana" "" "") (Demo.tc "alice" true)
       {| Certificate := [Demo.der]; PrivateKey := Priv Demo.key |}
       {| Addr := "proxy.example.com:3080"; AddrNetwork := "tcp"; Path := "" |}
       7%nat)
  = (4%nat, None) ∧
  result (onProxyCommandApp E (Demo.cf "grafana" "" "")) = None ∧
  last (events (onProxyCommandApp E (Demo.cf "grafana" "" "")))
  = Some (EvClose 4%nat).
Proof.
  split; [reflexivity |].
  destruct (app_command_run
              (Demo.env (Demo.tc "alice" true) (Demo.now + 60 * time.Second)
                 (4%nat, None) None)
              (Demo.cf "grafana" "" "") (Demo.tc "alice" true)
              {| Certificate := [Demo.der]; PrivateKey := Priv Demo.key |}
              {| Addr := "proxy.example.com:3080"; AddrNetwork := "tcp";
                 Path := "" |}
              7%nat 4%nat eq_refl eq_refl eq_refl eq_refl eq_refl)
    as (Hres & Hev & _).
  split; [exact Hres |]. rewrite Hev. reflexivity.
Defined.

(* ===================================================================== *)
(** * More on the db command *)
(* ===================================================================== *)

(** Goals of the form [Forall P log] for a log that is written out. *)
Ltac solve_Forall :=
  cbn [fst snd app];
  repeat (match goal with
          | |- Forall _ (_ ++ _) => apply Forall_app; split
          | |- Forall _ (_ :: _) => constructor
          | |- Forall _ [] => constructor
          end; cbn [fst snd app]);
  try done; try (cbn; done).

(** Cutting a written-out log in front of a given tail. *)
Lemma cut_here {A} (P : A → Prop) (tail : list A) :
  ∃ body, tail = body ++ tail ∧ Forall P body.
Proof. exists []. by split. Qed.

Lemma cut_after_cons {A} (P : A → Prop) (x : A) (log tail : list A) :
  P x →
  (∃ body, log = body ++ tail ∧ Forall P body) →
  ∃ body, x :: log = body ++ tail ∧ Forall P body.
Proof.
  intros Hx (body & -> & Hbody). exists (x :: body). split; [done |].
  by constructor.
Qed.

Lemma cut_after_app {A} (P : A → Prop) (pre log tail : list A) :
  Forall P pre →
  (∃ body, log = body ++ tail ∧ Forall P body) →
  ∃ body, pre ++ log = body ++ tail ∧ Forall P body.
Proof.
  intros Hpre (body & -> & Hbody). exists (pre ++ body).
  split; [by rewrite app_assoc | by apply Forall_app].
Qed.

Ltac cut_log :=
  rewrite <- ?app_assoc; cbn [app];
  repeat first
    [ apply cut_here
    | apply cut_after_app; [assumption |]
    | apply cut_after_cons; [reflexivity |] ].

(** [mkLocalProxy] touches no listener: it reads the key pair, if any, and
    asks for the proxy. *)
Lemma mkLocalProxy_log E ctx opts :
  Forall (λ e, is_listener_use e = false) (events (mkLocalProxy E ctx opts)).
Proof.
  unfold mkLocalProxy.
  destruct (ToALPNProtocol E (protocol opts)) as [alpn [v|]];
    [by constructor |].
  destruct (ParseAddr E (proxyAddr opts)) as [address [v|]];
    [by constructor |].
  destruct (mkLocalProxyCerts_cases E (certFile opts) (keyFile opts))
    as [(Hc & Hk & Hr) | [(Hp & Hr) | (Hc & Hk & Hr)]];
    rewrite Hr; go_step.
  - destruct (NewLocalProxy E _) as [lp [v|]]; cbn; solve_Forall.
  - constructor.
  - destruct (LoadX509KeyPair E (certFile opts) (keyFile opts))
      as [cert [v|]]; cbn [fst snd app].
    { destruct (trace.Wrap (Some v)) eqn:Hw;
        [| by apply Wrap_not_nil in Hw].
      cbn. solve_Forall. }
    destruct (NewLocalProxy E _) as [lp [v|]]; cbn; solve_Forall.
Qed.

(** Once the db command has bound its listener it closes it on every path,
    exactly once and as its last action (followed only by the warning when
    the close fails): whether [mkLocalProxy], the profile lookup, the banner
    or [Start] fails or all succeed, the log is the client set-up, the
    bind, events that do not touch the listener, and the close. *)
Theorem db_command_closes_its_listener
    (E : Externs) (cf : CLIConf) (client : TeleportClient)
    (database : RouteToDatabase) (rootCluster : string) (l : Listener) :
  makeClient E cf false = (client, None) →
  pickActiveDatabase E cf = (database, None) →
  RootClusterName E client = (rootCluster, None) →
  Listen E "tcp" (listenAddr cf) = (l, None) →
  ∃ body,
    events (onProxyCommandDB E cf)
    = [EvMakeClient; EvListen "tcp" (listenAddr cf)] ++ body
      ++ listener_close_log E l ∧
    Forall (λ e, is_listener_use e = false) body.
Proof.
  intros Hmk Hdb Hroot Hl.
  unfold onProxyCommandDB. rewrite Hmk. go_step. rewrite Hdb, Hroot, Hl.
  cbn [fst snd app].
  match goal with
  | |- context [mkLocalProxy E ?ctx ?opts] =>
      pose proof (mkLocalProxy_log E ctx opts) as Hlog;
      destruct (mkLocalProxy E ctx opts) as [[lp e] mlog]
  end.
  unfold events in Hlog. cbn [fst snd] in Hlog |- *.
  match goal with
  | |- ∃ body, _ :: _ :: ?log = _ ∧ _ =>
      cut (∃ body, log = body ++ listener_close_log E l ∧
                   Forall (λ e, is_listener_use e = false) body)
  end.
  { intros (body & -> & Hbody). by exists body. }
  unfold listener_close_log.
  destruct e as [v|]; cbn [fst snd app].
  { destruct (Listener_Close E l); cbn [fst snd app]; cut_log. }
  destruct (StatusCurrent E (cf_HomePath cf) (cf_Proxy cf))
    as [profile [v|]]; cbn [fst snd app].
  { destruct (Listener_Close E l); cbn [fst snd app]; cut_log. }
  destruct (Stdout_Write E _) as [v|]; cbn [fst snd app].
  { destruct (Listener_Close E l); cbn [fst snd app]; cut_log. }
  destruct (LocalProxy_Start E lp (cf_Context cf)) as [v|];
    cbn [fst snd app];
    destruct (Listener_Close E l); cbn [fst snd app]; cut_log.
Qed.

Lemma db_command_closes_its_listener_witness :
  let E := Demo.env (Demo.tc "alice" true) 0 (4%nat, None)
             (Some (ForeignError "use of closed network connection")) in
  Listen E "tcp" (listenAddr (Demo.cf "" "" "")) = (7%nat, None) ∧
  ∃ body,
    events (onProxyCommandDB E (Demo.cf "" "" ""))
    = [EvMakeClient; EvListen "tcp" "localhost:0"] ++ body
      ++ [EvListenerClose 7%nat;
          EvLogWarn (Some (ForeignError "use of closed network connection"))
            "Failed to close listener."] ∧
    Forall (λ e, is_listener_use e = false) body.
Proof.
  split; [reflexivity |].
  exact (db_command_closes_its_listener
           (Demo.env (Demo.tc "alice" true) 0 (4%nat, None)
              (Some (ForeignError "use of closed network connection")))
           (Demo.cf "" "" "") (Demo.tc "alice" true)
           {| db_ServiceName := "pg"; db_Protocol := "postgres" |}
           "example.com" 7%nat eq_refl eq_refl eq_refl eq_refl).
Defined.

(** A complete run of the db command.  With the proxy constructed, the
    profile read and the banner written, the command has started the
    watcher before it reads the profile, prints the banner with the address
    the listener reports (not the address it asked for) before it starts
    the proxy, closes the proxy when [Start] returns and the listener after
    that.  Unlike the app command it returns the error of [Start]. *)
Theorem db_command_run
    (E : Externs) (cf : CLIConf) (client : TeleportClient)
    (database : RouteToDatabase) (rootCluster : string) (l : Listener)
    (lp : LocalProxy) (mlog : list Event) (profile : ProfileStatus) :
  makeClient E cf false = (client, None) →
  pickActiveDatabase E cf = (database, None) →
  RootClusterName E client = (rootCluster, None) →
  Listen E "tcp" (listenAddr cf) = (l, None) →
  mkLocalProxy E (cf_Context cf) (db_opts cf client database l)
  = ((lp, None), mlog) →
  StatusCurrent E (cf_HomePath cf) (cf_Proxy cf) = (profile, None) →
  Stdout_Write E (db_banner E cf database rootCluster l profile) = None →
  result (onProxyCommandDB E cf)
  = trace.Wrap (LocalProxy_Start E lp (cf_Context cf)) ∧
  events (onProxyCommandDB E cf)
  = [EvMakeClient; EvListen "tcp" (listenAddr cf)] ++ mlog ++
    [EvGoCloseOnDone (cf_Context cf) lp;
     EvStatusCurrent (cf_HomePath cf) (cf_Proxy cf);
     EvStdout (db_banner E cf database rootCluster l profile);
     EvStart lp (cf_Context cf);
     EvClose lp] ++
    listener_close_log E l.
Proof.
  intros Hmk Hdb Hroot Hl Hmlp Hprof Hout.
  unfold db_opts in Hmlp. unfold db_banner in Hout.
  unfold onProxyCommandDB. rewrite Hmk. go_step. rewrite Hdb, Hroot, Hl.
  cbn [fst snd app]. rewrite Hmlp. cbn [fst snd app]. rewrite Hprof.
  cbn [fst snd app]. rewrite Hout. cbn [fst snd app].
  unfold listener_close_log, db_banner.
  destruct (LocalProxy_Start E lp (cf_Context cf)) as [v|];
    destruct (Listener_Close E l); cbn [fst snd app];
    (split; [reflexivity |]); by rewrite <- ?app_assoc.
Qed.

Lemma db_command_run_witness :
  let E := Demo.env (Demo.tc "alice" true) 0 (4%nat, None) None in
  let cf := Demo.cf "" "" "" in
  let db := {| db_ServiceName := "pg"; db_Protocol := "postgres" |} in
  mkLocalProxy E (cf_Context cf) (db_opts cf (Demo.tc "alice" true) db 7%nat)
  = ((4%nat, None),
     [EvNewLocalProxy
        (db_proxy_config E 3%nat (db_opts cf (Demo.tc "alice" true) db 7%nat)
           "teleport-postgres"
           {| Addr := "proxy.example.com:3080"; AddrNetwork := "tcp";
              Path := "" |} [])]) ∧
  result (onProxyCommandDB E cf) = None ∧
  events (onProxyCommandDB E cf)
  = [EvMakeClient; EvListen "tcp" "localhost:0";
     EvNewLocalProxy
       (db_proxy_config E 3%nat (db_opts cf (Demo.tc "alice" true) db 7%nat)
          "teleport-postgres"
          {| Addr := "proxy.example.com:3080"; AddrNetwork := "tcp";
             Path := "" |} []);
     EvGoCloseOnDone 3%nat 4%nat;
     EvStatusCurrent "/home/alice" "proxy.example.com";
     EvStdout (db_banner E cf db "example.com" 7%nat 9%nat);
     EvStart 4%nat 3%nat;
     EvClose 4%nat;
     EvListenerClose 7%nat].
Proof.
  split; [reflexivity |].
  exact (db_command_run
           (Demo.env (Demo.tc "alice" true) 0 (4%nat, None) None)
           (Demo.cf "" "" "") (Demo.tc "alice" true)
           {| db_ServiceName := "pg"; db_Protocol := "postgres" |}
           "example.com" 7%nat 4%nat _ 9%nat
           eq_refl eq_refl eq_refl eq_refl eq_refl eq_refl eq_refl).
Defined.

(** If the profile cannot be read after the local proxy has been
    constructed, the db command returns that error with the watcher
    goroutine already started: it has not started the proxy, it does not
    close the proxy itself (its own [lp.Close()] is deferred only later),
    and it closes the listener.  The same holds when the banner cannot be
    written, after the attempt to write it. *)
Theorem db_command_fails_after_construction
    (E : Externs) (cf : CLIConf) (client : TeleportClient)
    (database : RouteToDatabase) (rootCluster : string) (l : Listener)
    (lp : LocalProxy) (mlog : list Event) :
  makeClient E cf false = (client, None) →
  pickActiveDatabase E cf = (database, None) →
  RootClusterName E client = (rootCluster, None) →
  Listen E "tcp" (listenAddr cf) = (l, None) →
  mkLocalProxy E (cf_Context cf) (db_opts cf client database l)
  = ((lp, None), mlog) →
  (∀ profile v,
     StatusCurrent E (cf_HomePath cf) (cf_Proxy cf) = (profile, Some v) →
     onProxyCommandDB E cf
     = (trace.Wrap (Some v),
        [EvMakeClient; EvListen "tcp" (listenAddr cf)] ++ mlog ++
        [EvGoCloseOnDone (cf_Context cf) lp;
         EvStatusCurrent (cf_HomePath cf) (cf_Proxy cf)] ++
        listener_close_log E l)) ∧
  (∀ profile v,
     StatusCurrent E (cf_HomePath cf) (cf_Proxy cf) = (profile, None) →
     Stdout_Write E (db_banner E cf database rootCluster l profile) = Some v →
     onProxyCommandDB E cf
     = (trace.Wrap (Some v),
        [EvMakeClient; EvListen "tcp" (listenAddr cf)] ++ mlog ++
        [EvGoCloseOnDone (cf_Context cf) lp;
         EvStatusCurrent (cf_HomePath cf) (cf_Proxy cf);
         EvStdout (db_banner E cf database rootCluster l profile)] ++
        listener_close_log E l)).
Proof.
  intros Hmk Hdb Hroot Hl Hmlp.
  unfold db_opts in Hmlp.
  split.
  - intros profile v Hprof.
    unfold onProxyCommandDB. rewrite Hmk. go_step. rewrite Hdb, Hroot, Hl.
    cbn [fst snd app]. rewrite Hmlp. cbn [fst snd app]. rewrite Hprof.
    cbn [fst snd app]. unfold listener_close_log.
    destruct (Listener_Close E l); cbn [fst snd app];
      by rewrite <- ?app_assoc.
  - intros profile v Hprof Hout. unfold db_banner in Hout.
    unfold onProxyCommandDB. rewrite Hmk. go_step. rewrite Hdb, Hroot, Hl.
    cbn [fst snd app]. rewrite Hmlp. cbn [fst snd app]. rewrite Hprof.
    cbn [fst snd app]. rewrite Hout. cbn [fst snd app].
    unfold listener_close_log, db_banner.
    destruct (Listener_Close E l); cbn [fst snd app];
      by rewrite <- ?app_assoc.
Qed.

Lemma db_command_fails_after_construction_witness :
  let E := env_with (Demo.env (Demo.tc "alice" true) 0 (4%nat, None) None)
             (Demo.tc "alice" true, None)
             (0%nat, Some (ForeignError "not logged in")) in
  let cf := Demo.cf "" "" "" in
  let db := {| db_ServiceName := "pg"; db_Protocol := "postgres" |} in
  let cfg := db_proxy_config E 3%nat
               (db_opts cf (Demo.tc "alice" true) db 7%nat)
               "teleport-postgres"
               {| Addr := "proxy.example.com:3080"; AddrNetwork := "tcp";
                  Path := "" |} [] in
  mkLocalProxy E (cf_Context cf) (db_opts cf (Demo.tc "alice" true) db 7%nat)
  = ((4%nat, None), [EvNewLocalProxy cfg]) ∧
  onProxyCommandDB E cf
  = (Some (TraceErr (ForeignError "not logged in")),
     [EvMakeClient; EvListen "tcp" "localhost:0"; EvNewLocalProxy cfg;
      EvGoCloseOnDone 3%nat 4%nat;
      EvStatusCurrent "/home/alice" "proxy.example.com";
      EvListenerClose 7%nat]).
Proof.
  split; [reflexivity |].
  exact (proj1 (db_command_fails_after_construction
                  (env_with
                     (Demo.env (Demo.tc "alice" true) 0 (4%nat, None) None)
                     (Demo.tc "alice" true, None)
                     (0%nat, Some (ForeignError "not logged in")))
                  (Demo.cf "" "" "") (Demo.tc "alice" true)
                  {| db_ServiceName := "pg"; db_Protocol := "postgres" |}
                  "example.com" 7%nat 4%nat _
                  eq_refl eq_refl eq_refl eq_refl eq_refl)
           0%nat (ForeignError "not logged in") eq_refl).
Defined.

(* ===================================================================== *)
(** * What the commands bind *)
(* ===================================================================== *)

(** The db and app commands bind nothing but a TCP socket on the loopback
    interface: port 0 of [localhost] when no port is configured, else the
    configured port of [127.0.0.1]; the ssh command binds and closes no
    listener at all.  This holds on every path. *)
Theorem commands_bind_loopback_only (E : Externs) (cf : CLIConf) :
  (listenAddr cf = "localhost:0" ∧ cf_LocalProxyPort cf = ""
   ∨ listenAddr cf = "127.0.0.1:" +:+ cf_LocalProxyPort cf
     ∧ cf_LocalProxyPort cf ≠ "") ∧
  Forall (binds_at (listenAddr cf)) (events (onProxyCommandDB E cf)) ∧
  Forall (binds_at (listenAddr cf)) (events (onProxyCommandApp E cf)) ∧
  Forall (λ e, is_listener_use e = false) (events (onProxyCommandSSH E cf)).
Proof.
  split_and!.
  - unfold listenAddr. destruct (decide (cf_LocalProxyPort cf = "")) as [H|H].
    + left. by rewrite (bool_decide_eq_false_2 _) by tauto.
    + right. by rewrite (bool_decide_eq_true_2 _) by done.
  - unfold onProxyCommandDB.
    destruct (makeClient E cf false) as [client [v|]]; go_step;
      [solve_Forall |].
    destruct (pickActiveDatabase E cf) as [database [v|]]; cbn [fst snd app];
      [solve_Forall |].
    destruct (RootClusterName E client) as [rootCluster [v|]];
      cbn [fst snd app]; [solve_Forall |].
    destruct (Listen E "tcp" (listenAddr cf)) as [l [v|]]; cbn [fst snd app];
      [solve_Forall |].
    match goal with
    | |- context [mkLocalProxy E ?ctx ?opts] =>
        pose proof (mkLocalProxy_log E ctx opts) as Hlog;
        destruct (mkLocalProxy E ctx opts) as [[lp e] mlog]
    end.
    unfold events in Hlog. cbn [fst snd] in Hlog |- *.
    assert (Forall (binds_at (listenAddr cf)) mlog) as Hm.
    { eapply Forall_impl; [exact Hlog |]. by intros []. }
    destruct e as [v|]; cbn [fst snd app].
    { destruct (Listener_Close E l); solve_Forall. }
    destruct (StatusCurrent E (cf_HomePath cf) (cf_Proxy cf))
      as [profile [v|]]; cbn [fst snd app].
    { destruct (Listener_Close E l); solve_Forall. }
    destruct (Stdout_Write E _) as [v|]; cbn [fst snd app].
    { destruct (Listener_Close E l); solve_Forall. }
    destruct (LocalProxy_Start E lp (cf_Context cf)) as [v|];
      destruct (Listener_Close E l); solve_Forall.
  - unfold onProxyCommandApp.
    destruct (makeClient E cf false) as [tc [v|]]; go_step;
      [solve_Forall |].
    pose proof (loadAppCertificate_events E tc (cf_AppName cf)) as Hev.
    destruct (loadAppCertificate E tc (cf_AppName cf)) as [[c e] log].
    unfold events in Hev. cbn [fst snd] in Hev. subst log.
    cbn [fst snd app].
    destruct e as [v|]; cbn [fst snd app]; [solve_Forall |].
    destruct (ParseAddr E (tc_WebProxyAddr tc)) as [address [v|]];
      cbn [fst snd app]; [solve_Forall |].
    destruct (Listen E "tcp" (listenAddr cf)) as [l [v|]]; cbn [fst snd app];
      [solve_Forall |].
    destruct (NewLocalProxy E _) as [lp [v|]]; cbn [fst snd app].
    { destruct (Listener_Close E l); solve_Forall. }
    destruct (LocalProxy_Start E lp (cf_Context cf)); solve_Forall.
  - unfold onProxyCommandSSH.
    destruct (makeClient E cf false) as [tc [v|]]; go_step;
      [solve_Forall |].
    destruct (SplitHostPort E (tc_Host tc)) as [[host port] [v|]];
      cbn [fst snd app]; [solve_Forall |].
    destruct (tc_TLSRoutingEnabled tc); cbn [fst snd app].
    + unfold sshProxyWithTLSRouting.
      destruct (ParseAddr E (tc_WebProxyAddr tc)) as [address [v|]];
        go_step; [solve_Forall |].
      destruct (ClientCertPool E tc (tc_SiteName tc)) as [pool [v|]];
        cbn [fst snd app]; [solve_Forall |].
      destruct (NewLocalProxy E _) as [lp [v|]]; cbn [fst snd app];
        [solve_Forall |].
      destruct (LocalProxy_SSHProxy E lp); solve_Forall.
    + unfold sshProxy.
      destruct (getSSHPath E) as [sshPath [v|]]; go_step; [solve_Forall |].
      destruct (SSHProxyHostPort E tc) as [sshHost sshPort].
      go_step. solve_Forall.
Qed.

(* ===================================================================== *)
(** * More on the ssh command *)
(* ===================================================================== *)

(** The two strategies of the ssh command exclude each other on every
    path: with TLS routing it never runs a child process, without TLS
    routing it never constructs, uses or closes a local proxy. *)
Theorem ssh_command_strategies_exclude_each_other
    (E : Externs) (cf : CLIConf) :
  if tc_TLSRoutingEnabled (makeClient E cf false).1
  then Forall (λ e, is_run e = false) (events (onProxyCommandSSH E cf))
  else Forall (λ e, is_proxy_use e = false) (events (onProxyCommandSSH E cf)).
Proof.
  unfold onProxyCommandSSH.
  destruct (makeClient E cf false) as [tc [v|]]; go_step.
  { destruct (tc_TLSRoutingEnabled tc); solve_Forall. }
  destruct (SplitHostPort E (tc_Host tc)) as [[host port] [v|]];
    cbn [fst snd app].
  { destruct (tc_TLSRoutingEnabled tc); solve_Forall. }
  destruct (tc_TLSRoutingEnabled tc); cbn [fst snd app].
  - unfold sshProxyWithTLSRouting.
    destruct (ParseAddr E (tc_WebProxyAddr tc)) as [address [v|]];
      go_step; [solve_Forall |].
    destruct (ClientCertPool E tc (tc_SiteName tc)) as [pool [v|]];
      cbn [fst snd app]; [solve_Forall |].
    destruct (NewLocalProxy E _) as [lp [v|]]; cbn [fst snd app];
      [solve_Forall |].
    destruct (LocalProxy_SSHProxy E lp); solve_Forall.
  - unfold sshProxy.
    destruct (getSSHPath E) as [sshPath [v|]]; go_step; [solve_Forall |].
    destruct (SSHProxyHostPort E tc) as [sshHost sshPort].
    go_step. solve_Forall.
Qed.

(** A complete run of the ssh command with TLS routing.  The local proxy
    is asked for with the cleaned target host and the port of the target as
    [SSHUserHost], with the certificate pool of the cluster as root CAs,
    without a listener and without client certificates; the tunnel runs
    once; the proxy is closed after the tunnel ends, whether it failed or
    not; and the command returns the error of the tunnel. *)
Theorem ssh_command_tunnel_run
    (E : Externs) (cf : CLIConf) (tc : TeleportClient) (host port : string)
    (address : NetAddr) (pool : CertPool) (lp : LocalProxy) :
  makeClient E cf false = (tc, None) →
  tc_TLSRoutingEnabled tc = true →
  SplitHostPort E (tc_Host tc) = (host, port, None) →
  ParseAddr E (tc_WebProxyAddr tc) = (address, None) →
  ClientCertPool E tc (tc_SiteName tc) = (pool, None) →
  let cfg :=
    ssh_proxy_config E cf tc
      (cleanTargetHost host (WebProxyHost E tc) (tc_SiteName tc)) port
      address pool in
  NewLocalProxy E cfg = (lp, None) →
  onProxyCommandSSH E cf
  = (trace.Wrap (LocalProxy_SSHProxy E lp),
     [EvMakeClient; EvClientCertPool (tc_SiteName tc); EvNewLocalProxy cfg;
      EvSSHProxy lp; EvClose lp]).
Proof.
  intros Hmk Htls Hsplit Hd Hpool cfg Hnew.
  unfold onProxyCommandSSH. rewrite Hmk. go_step.
  rewrite Hsplit, Htls. unfold sshProxyWithTLSRouting. rewrite Hd.
  go_step. rewrite Hpool. cbn [fst snd app].
  fold (ssh_proxy_config E cf tc
          (cleanTargetHost host (WebProxyHost E tc) (tc_SiteName tc)) port
          address pool).
  fold cfg. rewrite Hnew. cbn [fst snd app].
  destruct (LocalProxy_SSHProxy E lp) as [v|]; cbn [fst snd app];
    by rewrite ?Wrap_Wrap.
Qed.

Lemma ssh_command_tunnel_run_witness :
  let E := Demo.env (Demo.tc "alice" true) 0 (4%nat, None) None in
  let cfg :=
    ssh_proxy_config E (Demo.cf "" "" "") (Demo.tc "alice" true)
      "node1" "3022"
      {| Addr := "proxy.example.com:3080"; AddrNetwork := "tcp"; Path := "" |}
      5%nat in
  SSHUserHost cfg = "node1:3022" ∧
  onProxyCommandSSH E (Demo.cf "" "" "")
  = (None,
     [EvMakeClient; EvClientCertPool "example.com"; EvNewLocalProxy cfg;
      EvSSHProxy 4%nat; EvClose 4%nat]).
Proof.
  split; [reflexivity |].
  exact (ssh_command_tunnel_run
           (Demo.env (Demo.tc "alice" true) 0 (4%nat, None) None)
           (Demo.cf "" "" "") (Demo.tc "alice" true)
           "node1.proxy.example.com" "3022"
           {| Addr := "proxy.example.com:3080"; AddrNetwork := "tcp";
              Path := "" |}
           5%nat 4%nat eq_refl eq_refl eq_refl eq_refl eq_refl eq_refl).
Defined.

(** A target that [net.SplitHostPort] rejects (no port, for one) ends the
    ssh command right after the client is made, before the strategy is
    chosen: no proxy is constructed and no child is run. *)
Theorem ssh_command_rejects_bad_target
    (E : Externs) (cf : CLIConf) (tc : TeleportClient) (host port : string)
    (v : error_value) :
  makeClient E cf false = (tc, None) →
  SplitHostPort E (tc_Host tc) = (host, port, Some v) →
  onProxyCommandSSH E cf = (trace.Wrap (Some v), [EvMakeClient]).
Proof.
  intros Hmk Hsplit. unfold onProxyCommandSSH. rewrite Hmk. go_step.
  by rewrite Hsplit.
Qed.

Lemma ssh_command_rejects_bad_target_witness :
  let tc := {| tc_Host := "node1"; tc_WebProxyAddr := "proxy.example.com:3080";
               tc_SiteName := "example.com"; tc_HostLogin := "alice";
               tc_TLSRoutingEnabled := true; tc_KeysDir := "/home/alice/.tsh";
               tc_HostKeyCallback := 1%nat |} in
  let E := Demo.env tc 0 (4%nat, None) None in
  SplitHostPort E (tc_Host tc)
  = ("", "", Some (ForeignError "missing port in address")) ∧
  onProxyCommandSSH E (Demo.cf "" "" "")
  = (Some (TraceErr (ForeignError "missing port in address")),
     [EvMakeClient]).
Proof.
  split; [reflexivity |].
  exact (ssh_command_rejects_bad_target
           (Demo.env
              {| tc_Host := "node1";
                 tc_WebProxyAddr := "proxy.example.com:3080";
                 tc_SiteName := "example.com"; tc_HostLogin := "alice";
                 tc_TLSRoutingEnabled := true;
                 tc_KeysDir := "/home/alice/.tsh";
                 tc_HostKeyCallback := 1%nat |} 0 (4%nat, None) None)
           (Demo.cf "" "" "") _ "" ""
           (ForeignError "missing port in address") eq_refl eq_refl).
Defined.

(* ===================================================================== *)
(** * Without a client *)
(* ===================================================================== *)

(** If [makeClient] fails, each of the three commands returns its error
    under the trace wrapper and has done nothing else: nothing is read,
    bound, constructed or run. *)
Theorem commands_stop_without_client
    (E : Externs) (cf : CLIConf) (tc : TeleportClient) (v : error_value) :
  makeClient E cf false = (tc, Some v) →
  onProxyCommandSSH E cf = (trace.Wrap (Some v), [EvMakeClient]) ∧
  onProxyCommandDB E cf = (trace.Wrap (Some v), [EvMakeClient]) ∧
  onProxyCommandApp E cf = (trace.Wrap (Some v), [EvMakeClient]).
Proof.
  intros Hmk. unfold onProxyCommandSSH, onProxyCommandDB, onProxyCommandApp.
  rewrite Hmk. by go_step.
Qed.

Lemma commands_stop_without_client_witness :
  let E := env_with (Demo.env (Demo.tc "alice" true) 0 (4%nat, None) None)
             (Demo.tc "alice" true, Some (ForeignError "not logged in"))
             (0%nat, None) in
  makeClient E (Demo.cf "" "" "") false
  = (Demo.tc "alice" true, Some (ForeignError "not logged in")) ∧
  onProxyCommandDB E (Demo.cf "" "" "")
  = (Some (TraceErr (ForeignError "not logged in")), [EvMakeClient]).
Proof.
  split; [reflexivity |].
  exact (proj1 (proj2 (commands_stop_without_client
           (env_with (Demo.env (Demo.tc "alice" true) 0 (4%nat, None) None)
              (Demo.tc "alice" true, Some (ForeignError "not logged in"))
              (0%nat, None))
           (Demo.cf "" "" "") (Demo.tc "alice" true)
           (ForeignError "not logged in") eq_refl))).
Defined.
